(** * SHIFT-RAG: a shallow embedding of the retrieval / caching / filtering
    pipeline of [app/services] (Reader, Retriever, MetricEvaluator,
    QAService) and proofs of its specified properties. *)

From Stdlib Require Import String Ascii List Bool Arith NArith Lia.
From Stdlib Require Import Reals Lra Sorting.Permutation.
Import ListNotations.

Open Scope list_scope.

(** ** Python values *)

(** A Python [str] is a sequence of Unicode code points. *)
Definition pystr := list N.

(** ASCII literal to [pystr]. *)
Definition py (x : string) : pystr :=
  map (fun a => N.of_nat (nat_of_ascii a)) (list_ascii_of_string x).

(** Python exceptions raised along the modelled paths. *)
Inductive exn :=
| ValueError
| AttributeError
| IndexError.

(** A computation that either returns a value or raises. *)
Inductive res (A : Type) :=
| Ok (a : A)
| Err (e : exn).
Arguments Ok {A} a.
Arguments Err {A} e.

Definition bind {A B} (m : res A) (f : A -> res B) : res B :=
  match m with Ok a => f a | Err e => Err e end.

Notation "x <- m ;; k" := (bind m (fun x => k))
  (at level 61, m at next level, right associativity).
Notation "' p <- m ;; k" := (bind m (fun p => k))
  (at level 61, p pattern, m at next level, right associativity).

Definition raises {A} (m : res A) : bool :=
  match m with Ok _ => false | Err _ => true end.

Fixpoint prefixb (p s : pystr) : bool :=
  match p, s with
  | [], _ => true
  | c :: p', d :: s' => N.eqb c d && prefixb p' s'
  | _ :: _, [] => false
  end.

(** [str.startswith]. *)
Definition startswith (s p : pystr) : bool := prefixb p s.

(** [str.endswith]. *)
Definition endswith (s p : pystr) : bool := prefixb (rev p) (rev s).

(** ** Unicode character classes (Unicode 14, as Python's [re] and
    [str] methods see them) *)

(** [str.isspace] and the [\s] class of a [str] pattern (the two agree). *)
Definition py_isspace (c : N) : bool :=
  (((9 <=? c) && (c <=? 13)) || ((28 <=? c) && (c <=? 32)) ||
  (c =? 133) || (c =? 160) || (c =? 5760) ||
  ((8192 <=? c) && (c <=? 8202)) || (c =? 8232) || (c =? 8233) ||
  (c =? 8239) || (c =? 8287) || (c =? 12288))%N.

(** The blocks of decimal digits (category Nd), matched by [\d]. *)
Definition decimal_blocks : list (N * N) :=
  map (fun lo : N => (lo, (lo + 9)%N))
    [0x30; 0x660; 0x6f0; 0x7c0; 0x966; 0x9e6; 0xa66; 0xae6; 0xb66; 0xbe6;
     0xc66; 0xce6; 0xd66; 0xde6; 0xe50; 0xed0; 0xf20; 0x1040; 0x1090;
     0x17e0; 0x1810; 0x1946; 0x19d0; 0x1a80; 0x1a90; 0x1b50; 0x1bb0;
     0x1c40; 0x1c50; 0xa620; 0xa8d0; 0xa900; 0xa9d0; 0xa9f0; 0xaa50;
     0xabf0; 0xff10; 0x104a0; 0x10d30; 0x11066; 0x110f0; 0x11136; 0x111d0;
     0x112f0; 0x11450; 0x114d0; 0x11650; 0x116c0; 0x11730; 0x118e0;
     0x11950; 0x11c50; 0x11d50; 0x11da0; 0x16a60; 0x16ac0; 0x16b50]%N
  ++ [(0x1d7ce, 0x1d7ff)]%N
  ++ map (fun lo : N => (lo, (lo + 9)%N)) [0x1e140; 0x1e2f0; 0x1e950; 0x1fbf0]%N.

Definition py_isdecimal (c : N) : bool :=
  existsb (fun '(lo, hi) => (lo <=? c) && (c <=? hi))%N decimal_blocks.

(** Decimal value of a digit, as [int()] reads it. *)
Definition digit_value (c : N) : N :=
  match find (fun '(lo, hi) => (lo <=? c) && (c <=? hi))%N decimal_blocks with
  | Some (lo, _) => ((c - lo) mod 10)%N
  | None => 0%N
  end.

Definition digits_value (ds : pystr) : N :=
  fold_left (fun acc c => (10 * acc + digit_value c)%N) ds 0%N.

(** ** String methods *)

Fixpoint lstrip_by (p : N -> bool) (s : pystr) : pystr :=
  match s with
  | c :: s' => if p c then lstrip_by p s' else s
  | [] => []
  end.

(** [s.strip(chars)] with a predicate for membership in [chars]:
    leading and trailing characters satisfying [p] are removed. *)
Definition strip_by (p : N -> bool) (s : pystr) : pystr :=
  rev (lstrip_by p (rev (lstrip_by p s))).

(** [s.strip()]: whitespace. *)
Definition py_strip (s : pystr) : pystr := strip_by py_isspace s.

(** [s.replace(old, new)] for a non-empty [old]: every non-overlapping
    occurrence, scanning from the left. *)
Fixpoint replace_fuel (fuel : nat) (old new s : pystr) : pystr :=
  match fuel with
  | O => s
  | S f =>
    match s with
    | [] => []
    | c :: s' =>
      if prefixb old s then new ++ replace_fuel f old new (skipn (length old) s)
      else c :: replace_fuel f old new s'
    end
  end.

Definition py_replace (s old new : pystr) : pystr :=
  replace_fuel (S (length s)) old new s.

(** [s[i:j]]. *)
Definition slice (s : pystr) (i j : nat) : pystr := firstn (j - i) (skipn i s).

(** ** A backtracking regular-expression matcher (the [sre] semantics of
    [re.search] for the constructs used: literals, classes, sequence,
    ordered alternation, greedy repetition and capture groups). *)

Inductive regex :=
| REps
| RChr (p : N -> bool)
| RSeq (a b : regex)
| RAlt (a b : regex)
| RStar (a : regex)
| RGroup (g : nat) (a : regex).

Definition RLit (c : N) : regex := RChr (N.eqb c).
Definition RStr (s : pystr) : regex := fold_right (fun c r => RSeq (RLit c) r) REps s.
Definition RPlus (a : regex) : regex := RSeq a (RStar a).
Definition ROpt (a : regex) : regex := RAlt a REps.
Fixpoint RRep (n : nat) (a : regex) : regex :=
  match n with O => REps | S n' => RSeq a (RRep n' a) end.
Definition RAlts (l : list regex) : regex :=
  match rev l with
  | [] => REps
  | x :: xs => fold_left (fun acc r => RAlt r acc) xs x
  end.

(** Capture groups: group number and (start, end) positions. *)
Definition caps := list (nat * (nat * nat)).

(** Outcome of a bounded search: found, no match, or the step bound ran
    out (never produced when the bound is large enough; kept apart so that
    a [MFail] is a genuine failure). *)
Inductive mres (A : Type) :=
| MFound (a : A)
| MFail
| MFuel.
Arguments MFound {A} a.
Arguments MFail {A}.
Arguments MFuel {A}.

(** [mt fuel n r s cp k]: match [r] at the suffix [s] of a subject of
    length [n], then continue with [k]; alternatives and repetitions are
    tried in the engine's priority order. *)
Fixpoint mt {A} (fuel n : nat) (r : regex) (s : pystr) (cp : caps)
    (k : pystr -> caps -> mres A) : mres A :=
  match fuel with
  | O => MFuel
  | S f =>
    match r with
    | REps => k s cp
    | RChr p =>
      match s with
      | c :: s' => if p c then k s' cp else MFail
      | [] => MFail
      end
    | RSeq a b => mt f n a s cp (fun s1 c1 => mt f n b s1 c1 k)
    | RAlt a b =>
      match mt f n a s cp k with
      | MFail => mt f n b s cp k
      | o => o
      end
    | RStar a =>
      match mt f n a s cp (fun s1 c1 =>
              if length s1 <? length s then mt f n (RStar a) s1 c1 k
              else MFail) with
      | MFail => k s cp
      | o => o
      end
    | RGroup g a =>
      mt f n a s cp (fun s1 c1 => k s1 ((g, (n - length s, n - length s1)) :: c1))
    end
  end.

Fixpoint regex_size (r : regex) : nat :=
  match r with
  | REps | RChr _ => 1
  | RSeq a b | RAlt a b => S (regex_size a + regex_size b)
  | RStar a | RGroup _ a => S (regex_size a)
  end.

(** A match object: span of group 0 and the captured groups. *)
Record match_obj := { m_start : nat; m_end : nat; m_caps : caps }.

Definition fuel_for (r : regex) (s : pystr) : nat :=
  (regex_size r + 2) * (length s + 2) * (length s + 2).

(** [pattern.match(s)]: anchored at position 0. *)
Definition re_match (r : regex) (s : pystr) : mres match_obj :=
  let n := length s in
  mt (fuel_for r s) n r s [] (fun s1 c1 => MFound {| m_start := 0; m_end := n - length s1; m_caps := c1 |}).

(** [pattern.search(s)]: the leftmost position where [r] matches. *)
Fixpoint search_from (r : regex) (n : nat) (fuel : nat) (s : pystr) : mres match_obj :=
  let here := mt fuel n r s []
        (fun s1 c1 => MFound {| m_start := n - length s; m_end := n - length s1; m_caps := c1 |}) in
  match here with
  | MFail =>
    match s with
    | [] => MFail
    | _ :: s' => search_from r n fuel s'
    end
  | o => o
  end.

Definition re_search (r : regex) (s : pystr) : mres match_obj :=
  search_from r (length s) (fuel_for r s) s.

(** [m.group(g)] (group 0 is the whole match). *)
Definition group (s : pystr) (m : match_obj) (g : nat) : option pystr :=
  match g with
  | O => Some (slice s (m_start m) (m_end m))
  | _ =>
    match find (fun '(g', _) => Nat.eqb g g') (m_caps m) with
    | Some (_, (i, j)) => Some (slice s i j)
    | None => None
    end
  end.

Definition RCat (l : list regex) : regex := fold_right RSeq REps l.

Definition ch (a : ascii) : N := N.of_nat (nat_of_ascii a).
Definition in_range (lo hi : ascii) (c : N) : bool := (ch lo <=? c)%N && (c <=? ch hi)%N.

(** Length bounds of a pattern, for reasoning about the matcher. *)

Definition oadd (x y : option nat) : option nat :=
  match x, y with Some x, Some y => Some (x + y) | _, _ => None end.

Definition omax (x y : option nat) : option nat :=
  match x, y with Some x, Some y => Some (Nat.max x y) | _, _ => None end.

(** The fewest characters a match of [r] consumes. *)
Fixpoint min_len (r : regex) : nat :=
  match r with
  | REps => 0
  | RChr _ => 1
  | RSeq a b => min_len a + min_len b
  | RAlt a b => Nat.min (min_len a) (min_len b)
  | RStar _ => 0
  | RGroup _ a => min_len a
  end.

(** The most characters a match of [r] consumes ([None]: no bound). *)
Fixpoint max_len (r : regex) : option nat :=
  match r with
  | REps => Some 0
  | RChr _ => Some 1
  | RSeq a b => oadd (max_len a) (max_len b)
  | RAlt a b => omax (max_len a) (max_len b)
  | RStar _ => None
  | RGroup _ a => max_len a
  end.

(** A bound on the span of every capture of group [g] recorded while
    matching [r] ([Some 0] when [r] has no such group). *)
Fixpoint group_bound (g : nat) (r : regex) : option nat :=
  match r with
  | REps | RChr _ => Some 0
  | RSeq a b | RAlt a b => omax (group_bound g a) (group_bound g b)
  | RStar a => group_bound g a
  | RGroup g' a =>
    if Nat.eqb g g' then omax (max_len a) (group_bound g a) else group_bound g a
  end.

(** ** Documents *)

(** A [datetime] at midnight, as [strptime] builds it. *)
Record date := { year : N; month : N; day : N }.

(** Metadata values of a [Document]. *)
Inductive pyval :=
| VStr (s : pystr)
| VDate (d : date)
| VNone.

(** A metadata dict, in insertion order. *)
Definition metadata := list (pystr * pyval).

(** [dict.get(key)]: [None] when the key is absent. *)
Definition meta_get (m : metadata) (key : pystr) : pyval :=
  match find (fun '(k, _) => if list_eq_dec N.eq_dec k key then true else false) m with
  | Some (_, v) => v
  | None => VNone
  end.

(** [langchain.docstore.document.Document]. *)
Record Document := { page_content : pystr; doc_metadata : metadata }.

(** ** Reader ([app/services/Reader.py]) *)
Module Reader.


(** [re.compile(r' Metadata\s*link: (https?://[^\s]+)\s*date: (\d{2}-\d{4})', re.DOTALL)] *)
Definition metadata_pattern : regex :=
  RCat [ RStr (py " Metadata");
         RStar (RChr py_isspace);
         RStr (py "link: ");
         RGroup 1 (RCat [ RStr (py "http"); ROpt (RLit (ch "s")); RStr (py "://");
                          RPlus (RChr (fun c => negb (py_isspace c))) ]);
         RStar (RChr py_isspace);
         RStr (py "date: ");
         RGroup 2 (RCat [ RRep 2 (RChr py_isdecimal); RLit (ch "-");
                          RRep 4 (RChr py_isdecimal) ]) ].

(** The pattern [_strptime] compiles for the format ['%d-%m-%Y']:
    [(?P<d>3[0-1]|[1-2]\d|0[1-9]|[1-9]| [1-9])-(?P<m>1[0-2]|0[1-9]|[1-9])-(?P<Y>\d\d\d\d)] *)
Definition dmY_pattern : regex :=
  let D := RChr py_isdecimal in
  RCat [ RGroup 1 (RAlts [ RSeq (RLit (ch "3")) (RChr (in_range "0" "1"));
                           RSeq (RChr (in_range "1" "2")) D;
                           RSeq (RLit (ch "0")) (RChr (in_range "1" "9"));
                           RChr (in_range "1" "9");
                           RSeq (RLit (ch " ")) (RChr (in_range "1" "9")) ]);
         RLit (ch "-");
         RGroup 2 (RAlts [ RSeq (RLit (ch "1")) (RChr (in_range "0" "2"));
                           RSeq (RLit (ch "0")) (RChr (in_range "1" "9"));
                           RChr (in_range "1" "9") ]);
         RLit (ch "-");
         RGroup 3 (RRep 4 D) ].

Definition is_leap (y : N) : bool :=
  ((y mod 4 =? 0) && negb (y mod 100 =? 0) || (y mod 400 =? 0))%N.

Definition days_in_month (y m : N) : N :=
  match m with
  | 2%N => if is_leap y then 29 else 28
  | 4%N | 6%N | 9%N | 11%N => 30
  | _ => 31
  end%N.

(** [datetime.strptime(s, '%d-%m-%Y')]: the pattern must match the whole
    string, then [datetime_date(year, month, day)] must exist.
    [None] only if the matcher's step bound ran out. *)
Definition strptime_dmY (s : pystr) : option (res date) :=
  match re_match dmY_pattern s with
  | MFuel => None
  | MFail => Some (Err ValueError)
  | MFound m =>
    if negb (Nat.eqb (m_end m) (length s)) then Some (Err ValueError)
    else
      match group s m 1, group s m 2, group s m 3 with
      | Some d, Some mo, Some y =>
        let dv := digits_value d in
        let mv := digits_value mo in
        let yv := digits_value y in
        if (yv =? 0)%N || (days_in_month yv mv <? dv)%N then Some (Err ValueError)
        else Some (Ok {| year := yv; month := mv; day := dv |})
      | _, _, _ => Some (Err ValueError)
      end
  end.

(** [Reader.extract_metadata]; [None] only if the matcher's step bound
    ran out. *)
Definition extract_metadata (text : pystr) : option (pystr * metadata) :=
  match re_search metadata_pattern text with
  | MFuel => None
  | MFail => Some (text, [])
  | MFound m =>
    match group text m 0, group text m 1, group text m 2 with
    | Some metadata_text, Some l, Some ds =>
      let clean_text := py_strip (py_replace text metadata_text []) in
      let link := py_strip l in
      let date_str := py_strip ds in
      match strptime_dmY date_str with
      | None => None
      | Some r =>
        let date := match r with Ok d => VDate d | Err _ => VNone end in
        Some (clean_text, [(py "link", VStr link); (py "date", date)])
      end
    | _, _, _ => None
    end
  end.

(** [Reader.read_documents]: [files] are the (file name, content) pairs
    that [os.walk] yields under the directory, in walk order; only the
    names ending in [.md] are read. [None] only if the matcher's step bound
    ran out. *)
Fixpoint read_documents (files : list (pystr * pystr)) : option (list Document) :=
  match files with
  | [] => Some []
  | (file, content) :: rest =>
    if endswith file (py ".md") then
      match extract_metadata content, read_documents rest with
      | Some (text, metadata), Some documents =>
        Some ({| page_content := text; doc_metadata := metadata |} :: documents)
      | _, _ => None
      end
    else read_documents rest
  end.

End Reader.

(** ** MetricEvaluator ([app/services/MetricEvaluator.py]) *)
Module MetricEvaluator.
Section Scorer.

(** [str.lower], used by [CountVectorizer]'s default preprocessor. *)
Variable lower : pystr -> pystr.
(** Membership in the [\w] class of a [str] pattern. *)
Variable is_word : N -> bool.
(** [embeddings.embed_query]. *)
Variable embed_query : pystr -> list R.

Local Open Scope R_scope.

(** The default analyzer of [CountVectorizer]: lowercase, then
    [re.findall(r"(?u)\b\w\w+\b", s)], i.e. the maximal runs of word
    characters of length at least 2, from left to right. [cur] is the run
    being read. *)
Fixpoint runs (cur : pystr) (s : pystr) : list pystr :=
  match s with
  | [] => if (2 <=? length cur)%nat then [cur] else []
  | c :: s' =>
    if is_word c then runs (cur ++ [c]) s'
    else if (2 <=? length cur)%nat then cur :: runs [] s' else runs [] s'
  end.

Definition tokens (s : pystr) : list pystr := runs [] (lower s).

Definition pystr_dec := list_eq_dec N.eq_dec.

(** The fitted vocabulary: the distinct tokens of both documents
    ([vocabulary_] is sorted; the order does not change the dot products
    and norms below). *)
Definition vocabulary (a b : pystr) : list pystr :=
  nodup pystr_dec (tokens a ++ tokens b).

(** A row of [fit_transform(...).toarray()]: term counts. *)
Definition count_vector (voc : list pystr) (s : pystr) : list nat :=
  map (fun w => count_occ pystr_dec (tokens s) w) voc.

Fixpoint dot_nat (u v : list nat) : nat :=
  match u, v with
  | x :: u', y :: v' => x * y + dot_nat u' v'
  | _, _ => 0
  end%nat.

(** [sklearn.preprocessing.normalize] divides a row by its norm, a zero
    norm being replaced by 1. *)
Definition scale_nat (sq : nat) : R := if (sq =? 0)%nat then 1 else sqrt (INR sq).

(** [lexical_cosine_similarity]: [CountVectorizer().fit_transform([str1, str2])]
    raises [ValueError] (empty vocabulary) when neither string has a token;
    otherwise [cosine_similarity(vectors)[0][1]]. *)
Definition lexical_cosine_similarity (str1 str2 : pystr) : res R :=
  let voc := vocabulary str1 str2 in
  match voc with
  | [] => Err ValueError
  | _ =>
    let u := count_vector voc str1 in
    let v := count_vector voc str2 in
    Ok (INR (dot_nat u v) / (scale_nat (dot_nat u u) * scale_nat (dot_nat v v)))
  end.

Fixpoint dot_R (u v : list R) : R :=
  match u, v with
  | x :: u', y :: v' => x * y + dot_R u' v'
  | _, _ => 0
  end.

Definition scale_R (sq : R) : R :=
  if Req_EM_T sq 0 then 1 else sqrt sq.

(** [cosine_similarity([e1], [e2])[0][0]]: the two rows must have the same
    (non-zero) number of features, else [ValueError]. *)
Definition cosine_R (u v : list R) : res R :=
  if (Nat.eqb (length u) (length v) && negb (Nat.eqb (length u) 0))%bool then
    Ok (dot_R u v / (scale_R (dot_R u u) * scale_R (dot_R v v)))
  else Err ValueError.

Definition get_embeddings (text : pystr) : list R := embed_query text.

Definition semantic_cosine_similarity (str1 str2 : pystr) : res R :=
  let embeddings1 := get_embeddings str1 in
  let embeddings2 := get_embeddings str2 in
  cosine_R embeddings1 embeddings2.

(** [evaluate]: [0.5 * lexical + 0.5 * semantic], lexical first. *)
Definition evaluate (str1 str2 : pystr) : res R :=
  lexical_score <- lexical_cosine_similarity str1 str2 ;;
  semantic_score <- semantic_cosine_similarity str1 str2 ;;
  Ok (0.5 * lexical_score + 0.5 * semantic_score).

End Scorer.
End MetricEvaluator.

(** ** Retriever ([app/services/Retriever.py]) *)
Module Retriever.

(** A FAISS vector store, seen through its docstore: the indexed
    documents in insertion order. *)
Definition store := list Document.

(** [vectorstore.as_retriever(search_kwargs={'k': k})]: the store it
    queries and its mutable [search_kwargs['k']]. (No path of [QAService]
    mutates a store after a view of it is built, so the view's store is
    the adapter's store.) *)
Record view := { view_store : store; view_k : nat }.

(** The adapter's fields; [disk] is the index persisted at [index_path]. *)
Record adapter := {
  k_search : nat;
  vectorstore : option store;
  retriever : option view;
  disk : option store
}.

Section Adapter.

(** [vectorstore.similarity_search(question, k=k)]: the FAISS query. *)
Variable similarity_search : store -> nat -> pystr -> list Document.

(** [Retriever(indexer, embeddings, index_path, k_search)]. *)
Definition new (k_search : nat) (disk : option store) : adapter :=
  {| k_search := k_search; vectorstore := None; retriever := None; disk := disk |}.

(** [setup]: [None.as_retriever] raises [AttributeError]. *)
Definition setup (a : adapter) : res adapter :=
  match vectorstore a with
  | None => Err AttributeError
  | Some vs =>
    Ok {| k_search := k_search a; vectorstore := vectorstore a;
          retriever := Some {| view_store := vs; view_k := k_search a |};
          disk := disk a |}
  end.

(** [save]. *)
Definition save (a : adapter) : res adapter :=
  match vectorstore a with
  | None => Err AttributeError
  | Some vs =>
    Ok {| k_search := k_search a; vectorstore := vectorstore a;
          retriever := retriever a; disk := Some vs |}
  end.

(** [indexer.from_documents(documents, embeddings)]: FAISS sizes its index
    from the first embedding, so an empty batch raises [IndexError]. *)
Definition from_documents (documents : list Document) : res store :=
  match documents with
  | [] => Err IndexError
  | _ => Ok documents
  end.

(** [build]. *)
Definition build (a : adapter) (documents : list Document) : res adapter :=
  vs <- from_documents documents ;;
  save {| k_search := k_search a; vectorstore := Some vs;
          retriever := retriever a; disk := disk a |}.

(** [load]: a missing index ([RuntimeError], caught) leaves the adapter
    unchanged. *)
Definition load (a : adapter) : adapter :=
  match disk a with
  | Some vs =>
    {| k_search := k_search a; vectorstore := Some vs;
       retriever := retriever a; disk := disk a |}
  | None => a
  end.

(** [set]: index the new documents; when a store exists, call
    [self.vectorstore.merge(vectorstore)]. LangChain's [FAISS] has no
    [merge] attribute (only [merge_from]), so that call raises
    [AttributeError] before [save], and the adapter is left as it was.
    Otherwise the new index becomes the store, is saved, and the view is
    rebuilt with [k_search]. *)
Definition set (a : adapter) (documents : list Document) : res adapter :=
  vs <- from_documents documents ;;
  match vectorstore a with
  | Some _ => Err AttributeError
  | None =>
    a1 <- save {| k_search := k_search a; vectorstore := Some vs;
                  retriever := retriever a; disk := disk a |} ;;
    Ok {| k_search := k_search a1; vectorstore := vectorstore a1;
          retriever := Some {| view_store := vs; view_k := k_search a1 |};
          disk := disk a1 |}
  end.

(** [get(question, k=None)]: a truthy [k] is written into the view's
    [search_kwargs]; then [self.retriever.invoke(question)]. With no view
    ([self.retriever is None]) either step raises [AttributeError]. *)
Definition get (a : adapter) (question : pystr) (k : option nat)
    : res (list Document * adapter) :=
  match retriever a with
  | None => Err AttributeError
  | Some v =>
    let v' := match k with
              | Some k' => if (k' =? 0)%nat then v
                           else {| view_store := view_store v; view_k := k' |}
              | None => v
              end in
    Ok (similarity_search (view_store v') (view_k v') question,
        {| k_search := k_search a; vectorstore := vectorstore a;
           retriever := Some v'; disk := disk a |})
  end.

(** A sequence of [get] calls on one adapter. *)
Fixpoint gets (a : adapter) (qs : list (pystr * option nat))
    : res (list (list Document) * adapter) :=
  match qs with
  | [] => Ok ([], a)
  | (q, k) :: qs' =>
    '(docs, a1) <- get a q k ;;
    '(rest, a2) <- gets a1 qs' ;;
    Ok (docs :: rest, a2)
  end.

End Adapter.
End Retriever.

(** ** QAService ([app/services/QAService.py]) *)
Module QAService.
Import Retriever.

(** ['да'] (U+0434 U+0430), the affirmative reply of the intent prompt. *)
Definition da : pystr := [0x434; 0x430]%N.

(** ['Ответ:'] (U+041E U+0442 U+0432 U+0435 U+0442 U+003A), the argument of
    [result.strip(...)]; [str.strip] reads it as a set of characters. *)
Definition answer_label : pystr := [0x41E; 0x442; 0x432; 0x435; 0x442; 0x3A]%N.

Definition in_answer_label (c : N) : bool := existsb (N.eqb c) answer_label.

(** ["\n\n"]. *)
Definition double_newline : pystr := [10; 10]%N.

(** [sep.join(items)]. *)
Fixpoint py_join (sep : pystr) (items : list pystr) : pystr :=
  match items with
  | [] => []
  | [x] => x
  | x :: xs => x ++ sep ++ py_join sep xs
  end.

(** [SystemMessage] / [HumanMessage]. *)
Inductive message :=
| SystemMessage (content : pystr)
| HumanMessage (content : pystr).

(** Calls to the collaborators, in order: [llm.invoke], the corpus
    adapter's [get], [llm.stream]. *)
Inductive event :=
| EInvoke (prompt : pystr)
| ERetrieve (question : pystr) (k : option nat)
| EStream (messages : list message).

(** The service's fields ([metric_evaluator] and [llm] are the section's
    variables). *)
Record qa := { threshold : R; cache : adapter; retriever : adapter }.

Section Service.

Variable lower : pystr -> pystr.
Variable is_word : N -> bool.
Variable embed_query : pystr -> list R.
Variable similarity_search : store -> nat -> pystr -> list Document.
(** [llm.invoke(prompt).content]. *)
Variable invoke : pystr -> pystr.
(** [llm.stream(messages)]: the [content] of each chunk ([None] for a
    chunk without content). *)
Variable stream : list message -> list (option pystr).
(** [Config().PROMPTS['intent' | 'system' | 'user'].format(...)]. *)
Variables fmt_intent fmt_system fmt_user : pystr -> pystr.

Definition evaluate := MetricEvaluator.evaluate lower is_word embed_query.

(** [QAService.__init__]: the cache is set up only if an index was
    loaded; the corpus index is built from the documents the [Reader]
    returns when none was loaded, then set up. *)
Definition init (k_search : nat) (threshold : R)
    (cache_disk index_disk : option store) (data_documents : list Document) : res qa :=
  let c := load (new k_search cache_disk) in
  c1 <- (match vectorstore c with Some _ => setup c | None => Ok c end) ;;
  let r := load (new k_search index_disk) in
  r1 <- (match vectorstore r with None => build r data_documents | Some _ => Ok r end) ;;
  r2 <- setup r1 ;;
  Ok {| threshold := threshold; cache := c1; retriever := r2 |}.

(** [detect_intent]. *)
Definition detect_intent (que : pystr) : bool :=
  let intent := lower (invoke (fmt_intent que)) in
  if startswith intent da then false else true.

(** The loop of [filter_based_on_metric], [result] being the list built
    so far. *)
Fixpoint filter_loop (th : R) (question : pystr) (result documents : list Document)
    : res (list Document) :=
  match documents with
  | [] => Ok result
  | document :: rest =>
    score <- evaluate question (page_content document) ;;
    if Rlt_dec th score then filter_loop th question (result ++ [document]) rest
    else filter_loop th question result rest
  end.

Definition filter_based_on_metric (s : qa) (question : pystr) (documents : list Document)
    : res (list Document) :=
  filter_loop (threshold s) question [] documents.

Definition answers (documents : list Document) : list pyval :=
  map (fun document => meta_get (doc_metadata document) (py "answer")) documents.

Definition with_cache (s : qa) (c : adapter) : qa :=
  {| threshold := threshold s; cache := c; retriever := retriever s |}.

Definition with_retriever (s : qa) (r : adapter) : qa :=
  {| threshold := threshold s; cache := cache s; retriever := r |}.

(** [get_cached_answer]: [None] is Python's [None]. *)
Definition get_cached_answer (s : qa) (question : pystr) (k : option nat)
    : res (option (list pyval) * qa) :=
  '(documents, c1) <- get similarity_search (cache s) question k ;;
  let s1 := with_cache s c1 in
  match documents with
  | _ :: _ =>
    filtered <- filter_based_on_metric s question documents ;;
    match filtered with
    | [] => Ok (None, s1)
    | _ :: _ => Ok (Some (answers filtered), s1)
    end
  | [] => Ok (Some (answers documents), s1)
  end.

(** [result += response.content or ''] over the stream. *)
Definition accumulate (chunks : list (option pystr)) : pystr :=
  fold_left (fun result c => result ++ match c with Some t => t | None => [] end) chunks [].

(** [get_llm_answer], with the calls it makes. *)
Definition get_llm_answer (s : qa) (question : pystr) : res (pystr * qa * list event) :=
  let need := detect_intent question in
  '(context, r1, tr) <-
    (if need then
       '(documents, r1) <- get similarity_search (retriever s) question None ;;
       Ok (py_join double_newline (map page_content documents), r1,
           [ERetrieve question None])
     else Ok ([], retriever s, [])) ;;
  let messages := [SystemMessage (fmt_system context); HumanMessage (fmt_user question)] in
  let result := accumulate (stream messages) in
  let result := strip_by in_answer_label result in
  Ok (result, with_retriever s r1,
      [EInvoke (fmt_intent question)] ++ tr ++ [EStream messages]).

(** [set_cache]: one document per (question, answer) pair of the dict, in
    its order. *)
Definition set_cache (s : qa) (qa_pairs : list (pystr * pystr)) : res qa :=
  let documents := map (fun '(question, answer) =>
        {| page_content := question; doc_metadata := [(py "answer", VStr answer)] |}) qa_pairs in
  c1 <- set (cache s) documents ;;
  Ok (with_cache s c1).

End Service.
End QAService.

(** ** DummyLLM ([app/services/LLM.py]), the model [app/routes.py] uses *)
Module DummyLLM.
Import QAService.

(** [invoke(question).content]: ['да']. *)
Definition invoke (question : pystr) : pystr := [0x434; 0x430]%N.

(** The content of the single chunk [stream] returns:
    ['Это пример ответа от модели. Ответ:']. *)
Definition content : pystr :=
  [0x42d; 0x442; 0x43e; 0x20; 0x43f; 0x440; 0x438; 0x43c; 0x435; 0x440; 0x20;
   0x43e; 0x442; 0x432; 0x435; 0x442; 0x430; 0x20; 0x43e; 0x442; 0x20;
   0x43c; 0x43e; 0x434; 0x435; 0x43b; 0x438; 0x2e; 0x20;
   0x41e; 0x442; 0x432; 0x435; 0x442; 0x3a]%N.

Definition stream (messages : list message) : list (option pystr) := [Some content].

End DummyLLM.

(** ** HTTP routes ([app/routes.py]) *)
Module Routes.
Import Retriever QAService.

(** The [response] field of the JSON body. *)
Inductive response :=
| RFalse
| RNone
| RList (answers : list pyval)
| RStr (answer : pystr).

(** A value returned by [get_cached_answer], as a response. *)
Definition of_cached (r : option (list pyval)) : response :=
  match r with None => RNone | Some l => RList l end.

(** [not response] for such a value: [None] and [[]] are falsy. *)
Definition falsy (r : option (list pyval)) : bool :=
  match r with Some (_ :: _) => false | _ => true end.

Section Routes.

Variable lower : pystr -> pystr.
Variable is_word : N -> bool.
Variable embed_query : pystr -> list R.
Variable similarity_search : store -> nat -> pystr -> list Document.
Variable invoke : pystr -> pystr.
Variable stream : list message -> list (option pystr).
Variables fmt_intent fmt_system fmt_user : pystr -> pystr.

Local Abbreviation gca := (get_cached_answer lower is_word embed_query similarity_search).
Local Abbreviation gla :=
  (get_llm_answer lower similarity_search invoke stream fmt_intent fmt_system fmt_user).

(** The service once the cache adapter's [get(question, k)] has run: it
    writes [k] into the view before [get_cached_answer] scores anything,
    so a later scoring error keeps that write. *)
Definition after_cache_get (s : qa) (question : pystr) (k : option nat) : qa :=
  match get similarity_search (cache s) question k with
  | Ok (_, c1) => with_cache s c1
  | Err _ => s
  end.

(** [ask]: [get_cached_answer(question, 1)], then [get_llm_answer] when
    that result is falsy. An exception is caught and leaves [response] at
    the last value assigned to it. *)
Definition ask (s : qa) (question : pystr) : response * qa :=
  match gca s question (Some 1%nat) with
  | Err _ => (RFalse, after_cache_get s question (Some 1%nat))
  | Ok (r, s1) =>
    if falsy r then
      match gla s1 question with
      | Ok (answer, s2, _) => (RStr answer, s2)
      | Err _ => (of_cached r, s1)
      end
    else (of_cached r, s1)
  end.

(** [ask_llm]. *)
Definition ask_llm (s : qa) (question : pystr) : response * qa :=
  match gla s question with
  | Ok (answer, s1, _) => (RStr answer, s1)
  | Err _ => (RFalse, s)
  end.

(** [set_cache] for a JSON object body, given as its (key, value) pairs in
    order; [QAService.set_cache] returns [None]. *)
Definition set_cache (s : qa) (data : list (pystr * pystr)) : response * qa :=
  match QAService.set_cache s data with
  | Ok s1 => (RNone, s1)
  | Err _ => (RFalse, s)
  end.

(** The states of [qa_service]: built by [QAService.__init__], then changed
    by requests to the three routes. *)
Inductive reachable : qa -> Prop :=
| reach_init k_search threshold cache_disk index_disk data s :
    init k_search threshold cache_disk index_disk data = Ok s -> reachable s
| reach_ask s q : reachable s -> reachable (snd (ask s q))
| reach_ask_llm s q : reachable s -> reachable (snd (ask_llm s q))
| reach_set_cache s data : reachable s -> reachable (snd (set_cache s data)).

(** A request to one of the three routes. *)
Inductive request :=
| AskReq (question : pystr)
| AskLLMReq (question : pystr)
| SetCacheReq (data : list (pystr * pystr)).

(** The route handling one request. *)
Definition handle (s : qa) (req : request) : response * qa :=
  match req with
  | AskReq question => ask s question
  | AskLLMReq question => ask_llm s question
  | SetCacheReq data => set_cache s data
  end.

(** Requests served one after the other by the one [qa_service]. *)
Fixpoint serve (s : qa) (reqs : list request) : list response * qa :=
  match reqs with
  | [] => ([], s)
  | req :: reqs' =>
    let '(r, s1) := handle s req in
    let '(rs, s2) := serve s1 reqs' in
    (r :: rs, s2)
  end.

End Routes.
End Routes.

(** ** Specification-side relations *)

(** [l1] is obtained from [l2] by deleting elements: a selection that
    keeps the order and the elements themselves. *)
Inductive subseq {A : Type} : list A -> list A -> Prop :=
| subseq_nil : subseq [] []
| subseq_take x l1 l2 : subseq l1 l2 -> subseq (x :: l1) (x :: l2)
| subseq_skip x l1 l2 : subseq l1 l2 -> subseq l1 (x :: l2).

(** [admitted ev th q docs kept]: scoring every candidate of [docs]
    against [q] with [ev] succeeds, and [kept] lists, in the order of
    [docs], exactly those whose score strictly exceeds [th]. *)
Inductive admitted (ev : pystr -> pystr -> res R) (th : R) (q : pystr)
    : list Document -> list Document -> Prop :=
| admitted_nil : admitted ev th q [] []
| admitted_in d ds ks sc :
    ev q (page_content d) = Ok sc -> (th < sc)%R ->
    admitted ev th q ds ks -> admitted ev th q (d :: ds) (d :: ks)
| admitted_out d ds ks sc :
    ev q (page_content d) = Ok sc -> (sc <= th)%R ->
    admitted ev th q ds ks -> admitted ev th q (d :: ds) ks.

(** ** Concrete collaborators, for evaluating the model on examples.
    [lower] and [is_word] below are the ASCII part of [str.lower] and of
    the [\w] class, enough for the ASCII inputs they are used on. *)
Module Concrete.

Definition ascii_lower (s : pystr) : pystr :=
  map (fun c => if in_range "A" "Z" c then (c + 32)%N else c) s.

Definition ascii_word (c : N) : bool :=
  in_range "a" "z" c || in_range "A" "Z" c || in_range "0" "9" c || N.eqb c (ch "_").

(** An embedding model mapping every text to the same unit vector. *)
Definition embed_unit (_ : pystr) : list R := [1%R].

(** A flat index whose query returns the first [k] documents. *)
Definition first_k (vs : Retriever.store) (k : nat) (_ : pystr) : list Document :=
  firstn k vs.

(** A language model whose intent reply is [reply] and whose stream emits
    [chunks]; prompts are passed through unchanged. *)
Definition invoke_reply (reply : pystr) (_ : pystr) : pystr := reply.
Definition stream_chunks (chunks : list (option pystr)) (_ : list QAService.message)
    : list (option pystr) := chunks.
Definition fmt_id (s : pystr) : pystr := s.

(** A cached question and a punctuation-only one. *)
Definition q_reset : pystr := py "reset password".
Definition d_hit : Document :=
  {| page_content := q_reset; doc_metadata := [(py "answer", VStr (py "Use the settings menu"))] |}.
Definition d_noise : Document :=
  {| page_content := py "???"; doc_metadata := [(py "answer", VStr (py "noise"))] |}.

Definition demo_adapter (vs : Retriever.store) : Retriever.adapter :=
  {| Retriever.k_search := 5; Retriever.vectorstore := Some vs;
     Retriever.retriever := Some {| Retriever.view_store := vs; Retriever.view_k := 5 |};
     Retriever.disk := Some vs |}.

(** A service with threshold 0.6 whose cache holds both documents. *)
Definition demo_qa : QAService.qa :=
  {| QAService.threshold := 0.6%R;
     QAService.cache := demo_adapter [d_hit; d_noise];
     QAService.retriever := demo_adapter [d_hit] |}.

(** The same service with threshold 1. *)
Definition strict_qa : QAService.qa :=
  {| QAService.threshold := 1%R;
     QAService.cache := demo_adapter [d_hit; d_noise];
     QAService.retriever := demo_adapter [d_hit] |}.

(** A service whose cache index is empty. *)
Definition empty_cache_qa : QAService.qa :=
  {| QAService.threshold := 0.6%R;
     QAService.cache := demo_adapter [];
     QAService.retriever := demo_adapter [d_hit] |}.

(** A service started with no persisted cache index: the cache adapter
    has neither a store nor a retriever. *)
Definition fresh_qa : QAService.qa :=
  {| QAService.threshold := 0.6%R;
     QAService.cache := Retriever.new 5 None;
     QAService.retriever := demo_adapter [d_hit] |}.

(** ['Ответ: тест'] and what [strip('Ответ:')] leaves of it: [' тес']. *)
Definition labelled_answer : pystr :=
  QAService.answer_label ++ [32; 0x442; 0x435; 0x441; 0x442]%N.
Definition stripped_answer : pystr := [32; 0x442; 0x435; 0x441]%N.

End Concrete.

(** * Properties *)

(** ** Relevance filtering and the cache lookup *)
Module CacheFacts.
Import Retriever QAService.

Section Facts.

Variable lower : pystr -> pystr.
Variable is_word : N -> bool.
Variable embed_query : pystr -> list R.
Variable similarity_search : store -> nat -> pystr -> list Document.

Local Abbreviation ev := (QAService.evaluate lower is_word embed_query).
Local Abbreviation floop := (filter_loop lower is_word embed_query).
Local Abbreviation filt := (filter_based_on_metric lower is_word embed_query).
Local Abbreviation gca := (get_cached_answer lower is_word embed_query similarity_search).

Lemma subseq_refl {A} (l : list A) : subseq l l.
Proof. induction l; constructor; auto. Qed.

Lemma subseq_nil_l {A} (l : list A) : subseq [] l.
Proof. induction l; constructor; auto. Qed.

Lemma filter_loop_selects th q result docs r :
  floop th q result docs = Ok r ->
  exists kept, r = result ++ kept /\ subseq kept docs.
Proof.
  revert result. induction docs as [|d ds IH]; intros result H; simpl in H.
  - injection H as <-. exists []. rewrite app_nil_r. split; [reflexivity | constructor].
  - destruct (ev q (page_content d)) as [sc|e] eqn:Hsc; simpl in H; [|discriminate].
    destruct (Rlt_dec th sc).
    + destruct (IH _ H) as (kept & -> & Hsub).
      exists (d :: kept). rewrite <- app_assoc. split; [reflexivity | now constructor].
    + destruct (IH _ H) as (kept & -> & Hsub).
      exists kept. split; [reflexivity | now constructor].
Qed.

Lemma filter_loop_admits th q result docs r :
  floop th q result docs = Ok r ->
  exists kept, r = result ++ kept /\ admitted ev th q docs kept.
Proof.
  revert result. induction docs as [|d ds IH]; intros result H; simpl in H.
  - injection H as <-. exists []. rewrite app_nil_r. split; [reflexivity | constructor].
  - destruct (ev q (page_content d)) as [sc|e] eqn:Hsc; simpl in H; [|discriminate].
    destruct (Rlt_dec th sc) as [Hlt|Hge].
    + destruct (IH _ H) as (kept & -> & Hk).
      exists (d :: kept). rewrite <- app_assoc. split; [reflexivity|].
      eapply admitted_in; eauto.
    + destruct (IH _ H) as (kept & -> & Hk).
      exists kept. split; [reflexivity|].
      eapply admitted_out; eauto. now apply Rnot_lt_le.
Qed.

(** C8: [filter_based_on_metric] only selects: whenever it returns, its
    result is a subsequence of its input, each document kept as it is. *)
Theorem filter_based_on_metric_subseq s q docs r :
  filt s q docs = Ok r -> subseq r docs.
Proof.
  unfold filter_based_on_metric. intros H.
  destruct (filter_loop_selects _ _ _ _ _ H) as (kept & -> & Hs). exact Hs.
Qed.

(** C1: a list returned by [get_cached_answer] is the [answer] metadata of
    exactly the candidates of the cache query whose score strictly exceeds
    the threshold, in the order of the query's result. *)
Theorem get_cached_answer_admitted s q k ans s' :
  gca s q k = Ok (Some ans, s') ->
  exists docs c1 kept,
    get similarity_search (cache s) q k = Ok (docs, c1) /\
    admitted ev (threshold s) q docs kept /\
    ans = answers kept /\ s' = with_cache s c1.
Proof.
  unfold get_cached_answer.
  destruct (get similarity_search (cache s) q k) as [[docs c1]|e] eqn:Hg;
    simpl; [|discriminate].
  destruct docs as [|d ds].
  - intros H. injection H as <- <-.
    exists [], c1, []. repeat split; constructor.
  - destruct (filt s q (d :: ds)) as [filtered|e] eqn:Hf; simpl; [|discriminate].
    destruct filtered as [|f fs]; [discriminate|].
    intros H. injection H as <- <-.
    unfold filter_based_on_metric in Hf.
    destruct (filter_loop_admits _ _ _ _ _ Hf) as (kept & Hk & Hadm).
    simpl in Hk. subst kept.
    exists (d :: ds), c1, (f :: fs). auto.
Qed.

(** C10: an empty cache query gives the empty list, a non-empty one whose
    candidates are all filtered out gives [None]; the two differ. *)
Theorem get_cached_answer_two_misses s q k :
  (forall c1, get similarity_search (cache s) q k = Ok ([], c1) ->
     gca s q k = Ok (Some [], with_cache s c1)) /\
  (forall docs c1, docs <> [] ->
     get similarity_search (cache s) q k = Ok (docs, c1) ->
     filt s q docs = Ok [] ->
     gca s q k = Ok (None, with_cache s c1)) /\
  Some (@nil pyval) <> None.
Proof.
  split; [|split].
  - intros c1 Hg. unfold get_cached_answer. rewrite Hg. reflexivity.
  - intros docs c1 Hne Hg Hf. unfold get_cached_answer. rewrite Hg. simpl.
    destruct docs as [|d ds]; [congruence|]. rewrite Hf. reflexivity.
  - discriminate.
Qed.

End Facts.
End CacheFacts.

(** ** The similarity scorer *)
Module ScorerFacts.
Import MetricEvaluator.

Section Facts.

Variable lower : pystr -> pystr.
Variable is_word : N -> bool.

Local Abbreviation toks := (tokens lower is_word).
Local Abbreviation lexical := (lexical_cosine_similarity lower is_word).

Lemma nodup_nil {A} (d : forall x y : A, {x = y} + {x <> y}) (l : list A) :
  nodup d l = [] -> l = [].
Proof.
  destruct l as [|x l]; [reflexivity|]. intros H.
  assert (Hin : In x (nodup d (x :: l))) by (apply nodup_In; left; reflexivity).
  rewrite H in Hin. destruct Hin.
Qed.

Lemma count_vector_no_tokens voc s :
  toks s = [] -> count_vector lower is_word voc s = map (fun _ => 0%nat) voc.
Proof.
  intros H. unfold count_vector. rewrite H. reflexivity.
Qed.

Lemma dot_nat_zeros_l (voc : list pystr) v : dot_nat (map (fun _ => 0%nat) voc) v = 0%nat.
Proof.
  revert v. induction voc as [|w voc IH]; intros [|y v]; simpl; auto.
Qed.

Lemma dot_nat_zeros_r (voc : list pystr) u : dot_nat u (map (fun _ => 0%nat) voc) = 0%nat.
Proof.
  revert u. induction voc as [|w voc IH]; intros [|x u]; simpl; auto.
  rewrite IH. lia.
Qed.

Lemma vocabulary_nil_iff a b :
  vocabulary lower is_word a b = [] <-> toks a = [] /\ toks b = [].
Proof.
  unfold vocabulary. split.
  - intros H. apply nodup_nil in H. now apply app_eq_nil in H.
  - intros [-> ->]. reflexivity.
Qed.

(** When one of the two strings has no token and the other has some, the
    lexical component is [0]. *)
Lemma lexical_one_side_empty a b :
  toks a = [] \/ toks b = [] -> toks a <> [] \/ toks b <> [] ->
  lexical a b = Ok 0%R.
Proof.
  intros Hempty Hsome. unfold lexical_cosine_similarity.
  destruct (vocabulary lower is_word a b) as [|w ws] eqn:Hv.
  - apply vocabulary_nil_iff in Hv. destruct Hv as [Ha Hb].
    destruct Hsome; contradiction.
  - f_equal.
    assert (Hdot : dot_nat (count_vector lower is_word (w :: ws) a)
                           (count_vector lower is_word (w :: ws) b) = 0%nat).
    { destruct Hempty as [Ha|Hb].
      - rewrite (count_vector_no_tokens _ _ Ha). apply dot_nat_zeros_l.
      - rewrite (count_vector_no_tokens _ _ Hb). apply dot_nat_zeros_r. }
    rewrite Hdot. simpl. unfold Rdiv. apply Rmult_0_l.
Qed.

Lemma lexical_no_tokens a b :
  toks a = [] -> toks b = [] -> lexical a b = Err ValueError.
Proof.
  intros Ha Hb. unfold lexical_cosine_similarity.
  assert (Hv : vocabulary lower is_word a b = []) by (apply vocabulary_nil_iff; auto).
  rewrite Hv. reflexivity.
Qed.

Lemma count_occ_pos_sq (voc : list pystr) s w :
  In w voc -> In w (toks s) ->
  (1 <= dot_nat (count_vector lower is_word voc s) (count_vector lower is_word voc s))%nat.
Proof.
  unfold count_vector. induction voc as [|x voc IH]; intros Hw Ht; [destruct Hw|].
  simpl. destruct Hw as [Hx|Hw].
  - subst x. assert (0 < count_occ pystr_dec (toks s) w)%nat by (apply count_occ_In; exact Ht).
    nia.
  - specialize (IH Hw Ht). lia.
Qed.

(** A string with tokens is lexically identical to itself. *)
Lemma lexical_self a : toks a <> [] -> lexical a a = Ok 1%R.
Proof.
  intros Ha. unfold lexical_cosine_similarity.
  destruct (vocabulary lower is_word a a) as [|w ws] eqn:Hv.
  - apply vocabulary_nil_iff in Hv. tauto.
  - f_equal.
    assert (Hw : In w (toks a)).
    { assert (Hin : In w (vocabulary lower is_word a a)) by (rewrite Hv; left; reflexivity).
      unfold vocabulary in Hin. apply nodup_In in Hin. apply in_app_or in Hin. tauto. }
    pose proof (count_occ_pos_sq (w :: ws) a w (or_introl eq_refl) Hw) as Hpos.
    set (n := dot_nat _ _) in *.
    unfold scale_nat. destruct (n =? 0)%nat eqn:Hn; [apply Nat.eqb_eq in Hn; lia|].
    assert (HR : (0 < INR n)%R) by (apply lt_0_INR; lia).
    rewrite sqrt_sqrt by lra. field. lra.
Qed.

Variable embed_query : pystr -> list R.

Local Abbreviation semantic := (semantic_cosine_similarity embed_query).
Local Abbreviation ev := (evaluate lower is_word embed_query).

Lemma cosine_unit : cosine_R [1%R] [1%R] = Ok 1%R.
Proof.
  unfold cosine_R. simpl. f_equal.
  replace (1 * 1 + 0)%R with 1%R by ring.
  unfold scale_R. destruct (Req_EM_T 1 0) as [H|H]; [lra|].
  rewrite sqrt_1. field.
Qed.

(** C5 (amended): a string without tokens makes the lexical component [0]
    when the other string has a token, and [evaluate] then returns half
    the semantic component; when neither string has a token,
    [CountVectorizer] raises [ValueError] and so does [evaluate]. *)
Theorem evaluate_tokenless a b :
  tokens lower is_word a = [] \/ tokens lower is_word b = [] ->
  (tokens lower is_word a = [] /\ tokens lower is_word b = [] ->
     evaluate lower is_word embed_query a b = Err ValueError) /\
  (tokens lower is_word a <> [] \/ tokens lower is_word b <> [] ->
     lexical_cosine_similarity lower is_word a b = Ok 0%R /\
     (forall sem, semantic_cosine_similarity embed_query a b = Ok sem ->
        evaluate lower is_word embed_query a b = Ok (0.5 * 0 + 0.5 * sem)%R) /\
     (length (embed_query a) = length (embed_query b) -> embed_query a <> [] ->
        exists sem, semantic_cosine_similarity embed_query a b = Ok sem)).
Proof.
  intros Hempty. split; [|intros Hsome; split; [|split]].
  - intros [Ha Hb]. unfold evaluate. rewrite (lexical_no_tokens a b Ha Hb). reflexivity.
  - now apply lexical_one_side_empty.
  - intros sem Hsem. unfold evaluate.
    rewrite (lexical_one_side_empty a b Hempty Hsome). simpl.
    change (semantic_cosine_similarity embed_query a b) with (semantic a b).
    rewrite Hsem. reflexivity.
  - intros Hlen Hne. unfold semantic_cosine_similarity, cosine_R, get_embeddings.
    rewrite Hlen, Nat.eqb_refl. simpl.
    destruct (Nat.eqb (length (embed_query b)) 0) eqn:H0.
    + apply Nat.eqb_eq in H0. rewrite <- Hlen in H0.
      apply length_zero_iff_nil in H0. contradiction.
    + eexists. reflexivity.
Qed.

End Facts.
End ScorerFacts.

(** ** The document-store adapter *)
Module AdapterFacts.
Import Retriever.

Section Facts.

Variable similarity_search : store -> nat -> pystr -> list Document.

Local Abbreviation get := (Retriever.get similarity_search).
Local Abbreviation gets := (Retriever.gets similarity_search).

Definition falsy_k (qk : pystr * option nat) : Prop :=
  snd qk = None \/ snd qk = Some 0%nat.

Lemma get_falsy_keeps a v q k :
  retriever a = Some v -> k = None \/ k = Some 0%nat ->
  get a q k = Ok (similarity_search (view_store v) (view_k v) q,
                  {| k_search := k_search a; vectorstore := vectorstore a;
                     retriever := Some v; disk := disk a |}).
Proof.
  intros Hv Hk. unfold Retriever.get. rewrite Hv.
  destruct Hk as [-> | ->]; reflexivity.
Qed.

Lemma gets_falsy a v qs :
  retriever a = Some v -> Forall falsy_k qs ->
  exists a'', gets a qs = Ok (map (fun qk => similarity_search (view_store v) (view_k v) (fst qk)) qs, a'').
Proof.
  intros Hv Hall. revert a Hv. induction Hall as [|[q k] qs Hk Hall IH]; intros a Hv; simpl.
  - eexists. reflexivity.
  - rewrite (get_falsy_keeps a v q k Hv Hk). simpl.
    destruct (IH {| k_search := k_search a; vectorstore := vectorstore a;
                    retriever := Some v; disk := disk a |} eq_refl) as [a'' ->].
    eexists. reflexivity.
Qed.

(** C9: [get(question, k)] with a truthy [k] writes [k] into the view's
    [search_kwargs]; every later [get] on the adapter with [k] absent or
    [0] queries with that [k], not with [k_search]. *)
Theorem get_k_persists a q k docs a' :
  k <> 0%nat -> get a q (Some k) = Ok (docs, a') ->
  exists vs,
    retriever a' = Some {| view_store := vs; view_k := k |} /\
    docs = similarity_search vs k q /\
    forall qs, Forall falsy_k qs ->
      exists a'', gets a' qs = Ok (map (fun qk => similarity_search vs k (fst qk)) qs, a'').
Proof.
  intros Hk H. unfold Retriever.get in H.
  destruct (retriever a) as [v|] eqn:Hv; [|discriminate].
  apply Nat.eqb_neq in Hk. rewrite Hk in H. simpl in H.
  injection H as <- <-.
  exists (view_store v). split; [reflexivity|]. split; [reflexivity|].
  intros qs Hall.
  apply (gets_falsy {| k_search := k_search a; vectorstore := vectorstore a;
                       retriever := Some {| view_store := view_store v; view_k := k |};
                       disk := disk a |}
                    {| view_store := view_store v; view_k := k |} qs eq_refl Hall).
Qed.

End Facts.
End AdapterFacts.

(** ** Character-set stripping *)
Module StripFacts.

Lemma lstrip_by_split p s :
  exists pre, s = pre ++ lstrip_by p s /\ Forall (fun c => p c = true) pre /\
    (forall c, hd_error (lstrip_by p s) = Some c -> p c = false).
Proof.
  induction s as [|c s IH]; simpl.
  - exists []. split; [reflexivity|]. split; [constructor|]. discriminate.
  - destruct (p c) eqn:Hc.
    + destruct IH as (pre & Hs & Hpre & Hhd).
      exists (c :: pre). simpl. rewrite <- Hs. auto.
    + exists []. split; [reflexivity|]. split; [constructor|].
      simpl. intros c' H. injection H as <-. exact Hc.
Qed.

Lemma hd_error_app {A} (l1 l2 : list A) c :
  hd_error l1 = Some c -> hd_error (l1 ++ l2) = Some c.
Proof. destruct l1; simpl; congruence. Qed.

(** [strip_by p s] removes a prefix and a suffix of characters in [p] and
    starts and ends with characters outside [p]. *)
Lemma strip_by_split p s :
  exists pre suf,
    s = pre ++ strip_by p s ++ suf /\
    Forall (fun c => p c = true) pre /\ Forall (fun c => p c = true) suf /\
    (forall c, hd_error (strip_by p s) = Some c -> p c = false) /\
    (forall c, hd_error (rev (strip_by p s)) = Some c -> p c = false).
Proof.
  destruct (lstrip_by_split p s) as (pre & Hs & Hpre & Hhd).
  set (t := lstrip_by p s) in *.
  destruct (lstrip_by_split p (rev t)) as (sufr & Ht & Hsuf & Hhd2).
  unfold strip_by. fold t.
  set (u := lstrip_by p (rev t)) in *.
  exists pre, (rev sufr).
  assert (Htu : t = rev u ++ rev sufr).
  { rewrite <- rev_app_distr, <- Ht, rev_involutive. reflexivity. }
  split; [|split; [exact Hpre|split; [|split]]].
  - rewrite Hs at 1. rewrite Htu. reflexivity.
  - apply Forall_rev. exact Hsuf.
  - intros c Hc. apply Hhd. rewrite Htu. now apply hd_error_app.
  - rewrite rev_involutive. exact Hhd2.
Qed.

End StripFacts.

(** ** The orchestrator *)
Module ServiceFacts.
Import Retriever QAService.

Section Facts.

Variable lower : pystr -> pystr.
Variable is_word : N -> bool.
Variable embed_query : pystr -> list R.
Variable similarity_search : store -> nat -> pystr -> list Document.
Variable invoke : pystr -> pystr.
Variable stream : list message -> list (option pystr).
Variables fmt_intent fmt_system fmt_user : pystr -> pystr.

Local Abbreviation gca := (get_cached_answer lower is_word embed_query similarity_search).
Local Abbreviation gla :=
  (get_llm_answer lower similarity_search invoke stream fmt_intent fmt_system fmt_user).
Local Abbreviation intent := (detect_intent lower invoke fmt_intent).

(** C3 (as the code behaves): with no persisted cache index the cache
    adapter is never set up, and [get_cached_answer] raises
    [AttributeError] for every question and every [k]. *)
Theorem get_cached_answer_empty_cache_raises k_search th index_disk data s q k :
  init k_search th None index_disk data = Ok s ->
  gca s q k = Err AttributeError.
Proof.
  unfold init. simpl.
  destruct (match vectorstore (load (new k_search index_disk)) with
            | Some _ => Ok (load (new k_search index_disk))
            | None => build (load (new k_search index_disk)) data
            end) as [r1|e]; simpl; [|discriminate].
  destruct (setup r1) as [r2|e]; simpl; [|discriminate].
  intros H. injection H as <-. reflexivity.
Qed.

(** C4: the intent reply, lower-cased, means "no retrieval" exactly when
    it starts with ['да']; then the context is empty and the corpus adapter
    is not queried; otherwise the corpus documents' contents joined with
    ["\n\n"] form the context. *)
Theorem get_llm_answer_intent s q :
  let reply := lower (invoke (fmt_intent q)) in
  intent q = negb (startswith reply da) /\
  (startswith reply da = true ->
     let msgs := [SystemMessage (fmt_system []); HumanMessage (fmt_user q)] in
     gla s q = Ok (strip_by in_answer_label (accumulate (stream msgs)),
                   with_retriever s (retriever s),
                   [EInvoke (fmt_intent q); EStream msgs])) /\
  (startswith reply da = false ->
     forall docs r1, get similarity_search (retriever s) q None = Ok (docs, r1) ->
     let msgs := [SystemMessage (fmt_system (py_join double_newline (map page_content docs)));
                  HumanMessage (fmt_user q)] in
     gla s q = Ok (strip_by in_answer_label (accumulate (stream msgs)),
                   with_retriever s r1,
                   [EInvoke (fmt_intent q); ERetrieve q None; EStream msgs])).
Proof.
  intros reply. split; [|split].
  - unfold detect_intent. fold reply. destruct (startswith reply da); reflexivity.
  - intros Hda msgs. unfold get_llm_answer, detect_intent. fold reply.
    rewrite Hda. reflexivity.
  - intros Hda docs r1 Hg msgs. unfold get_llm_answer, detect_intent. fold reply.
    rewrite Hda. simpl. rewrite Hg. reflexivity.
Qed.

(** C6: the answer returned by [get_llm_answer] is the accumulated stream
    with leading and trailing characters of the set {О, т, в, е, :}
    removed: what is removed lies in that set, and the answer neither
    starts nor ends with a character of the set. *)
Theorem get_llm_answer_strips_label s q r s' tr :
  gla s q = Ok (r, s', tr) ->
  exists msgs pre suf,
    In (EStream msgs) tr /\
    accumulate (stream msgs) = pre ++ r ++ suf /\
    Forall (fun c => in_answer_label c = true) pre /\
    Forall (fun c => in_answer_label c = true) suf /\
    (forall c, hd_error r = Some c -> in_answer_label c = false) /\
    (forall c, hd_error (rev r) = Some c -> in_answer_label c = false).
Proof.
  unfold get_llm_answer.
  destruct (if detect_intent lower invoke fmt_intent q
            then _ else _) as [[[context r1] tr1]|e]; simpl; [|discriminate].
  intros H. injection H as <- <- <-.
  set (msgs := [SystemMessage (fmt_system context); HumanMessage (fmt_user q)]).
  destruct (StripFacts.strip_by_split in_answer_label (accumulate (stream msgs)))
    as (pre & suf & Hs & Hpre & Hsuf & Hhd & Hlast).
  exists msgs, pre, suf. split.
  - right. apply in_or_app. right. left. reflexivity.
  - auto.
Qed.

End Facts.
End ServiceFacts.

(** ** Writing the cache twice *)
Module CacheWriteFacts.
Import Retriever QAService.

Lemma init_no_cache k_search th index_disk data s :
  init k_search th None index_disk data = Ok s ->
  cache s = new k_search None /\ threshold s = th.
Proof.
  unfold init. simpl.
  destruct (match vectorstore (load (new k_search index_disk)) with
            | Some _ => Ok (load (new k_search index_disk))
            | None => build (load (new k_search index_disk)) data
            end) as [r1|e]; simpl; [|discriminate].
  destruct (setup r1) as [r2|e]; simpl; [|discriminate].
  intros H. injection H as <-. split; reflexivity.
Qed.

(** C7: on a service started without a persisted cache index, the first
    [set_cache({q: a})] creates the cache index with the one entry and
    saves it; the second raises [AttributeError], because [Retriever.set]
    then calls [vectorstore.merge], which [FAISS] lacks. The cache keeps
    the single entry, and [/set-cache] responds [false]. *)
Theorem set_cache_twice_raises k_search th index_disk data s0 q a :
  init k_search th None index_disk data = Ok s0 ->
  let d := {| page_content := q; doc_metadata := [(py "answer", VStr a)] |} in
  exists s1,
    set_cache s0 [(q, a)] = Ok s1 /\
    vectorstore (cache s1) = Some [d] /\ disk (cache s1) = Some [d] /\
    set_cache s1 [(q, a)] = Err AttributeError /\
    Routes.set_cache s1 [(q, a)] = (Routes.RFalse, s1).
Proof.
  intros Hinit d. destruct (init_no_cache _ _ _ _ _ Hinit) as [Hc _].
  unfold set_cache. rewrite Hc. eexists. repeat split; reflexivity.
Qed.

End CacheWriteFacts.

(** ** Metadata extraction *)
Module ReaderFacts.
Import Reader.

(** C2 (as the code behaves): the date group of the metadata pattern is
    [\d{2}-\d{4}], so a block dated [15-03-2024] is not recognised and the
    text comes back unchanged with empty metadata, although the format
    ['%d-%m-%Y'] given to [strptime] reads [15-03-2024] as 2024-03-15; a
    block the pattern does match ([03-2024]) gets a [None] date. *)
Theorem extract_metadata_dmY_block :
  extract_metadata (py "Body Metadata link: https://x.test/a date: 15-03-2024")
    = Some (py "Body Metadata link: https://x.test/a date: 15-03-2024", []) /\
  strptime_dmY (py "15-03-2024") = Some (Ok {| year := 2024; month := 3; day := 15 |}) /\
  extract_metadata (py "Body Metadata link: https://x.test/a date: 03-2024")
    = Some (py "Body", [(py "link", VStr (py "https://x.test/a")); (py "date", VNone)]).
Proof. split; [|split]; vm_compute; reflexivity. Qed.

End ReaderFacts.

(** ** Concrete runs: witnesses and counterexamples *)
Module Examples.
Import Retriever QAService Concrete.

Local Abbreviation ev := (MetricEvaluator.evaluate ascii_lower ascii_word embed_unit).

Lemma ev_reset_self : ev q_reset q_reset = Ok (0.5 * 1 + 0.5 * 1)%R.
Proof.
  unfold MetricEvaluator.evaluate.
  rewrite ScorerFacts.lexical_self by (intro Hc; vm_compute in Hc; discriminate Hc).
  unfold MetricEvaluator.semantic_cosine_similarity, MetricEvaluator.get_embeddings, embed_unit.
  cbv beta zeta.
  rewrite ScorerFacts.cosine_unit. reflexivity.
Qed.

Lemma ev_reset_noise : ev q_reset (py "???") = Ok (0.5 * 0 + 0.5 * 1)%R.
Proof.
  unfold MetricEvaluator.evaluate.
  rewrite ScorerFacts.lexical_one_side_empty
    by (first [right; reflexivity | left; intro Hc; vm_compute in Hc; discriminate Hc]). simpl.
  unfold MetricEvaluator.semantic_cosine_similarity, MetricEvaluator.get_embeddings, embed_unit.
  cbv beta zeta.
  f_equal. replace (1 * 1 + 0)%R with 1%R by ring.
  unfold MetricEvaluator.scale_R. destruct (Req_EM_T 1 0); [lra|].
  rewrite sqrt_1. field.
Qed.

Lemma filter_demo :
  filter_based_on_metric ascii_lower ascii_word embed_unit demo_qa q_reset [d_hit; d_noise]
    = Ok [d_hit].
Proof.
  unfold filter_based_on_metric.
  cbn [filter_loop QAService.threshold demo_qa page_content d_hit d_noise].
  unfold QAService.evaluate. rewrite ev_reset_self. cbn [bind].
  destruct (Rlt_dec 0.6 (0.5 * 1 + 0.5 * 1)) as [_|Hn]; [|lra].
  cbn [filter_loop app]. rewrite ev_reset_noise. cbn [bind].
  destruct (Rlt_dec 0.6 (0.5 * 0 + 0.5 * 1)) as [Hn|_]; [lra|].
  reflexivity.
Qed.

(** Witness of C8. *)
Lemma filter_based_on_metric_subseq_witness :
  filter_based_on_metric ascii_lower ascii_word embed_unit demo_qa q_reset [d_hit; d_noise]
    = Ok [d_hit] /\ subseq [d_hit] [d_hit; d_noise].
Proof.
  split; [exact filter_demo|].
  exact (CacheFacts.filter_based_on_metric_subseq ascii_lower ascii_word embed_unit
           demo_qa q_reset [d_hit; d_noise] [d_hit] filter_demo).
Defined.

Lemma gca_demo :
  get_cached_answer ascii_lower ascii_word embed_unit first_k demo_qa q_reset None
    = Ok (Some [VStr (py "Use the settings menu")],
          with_cache demo_qa (demo_adapter [d_hit; d_noise])).
Proof.
  unfold get_cached_answer. simpl.
  rewrite filter_demo. reflexivity.
Qed.

(** Witness of C1: the paraphrase scenario of the spec, the question
    itself being cached. *)
Lemma get_cached_answer_admitted_witness :
  get_cached_answer ascii_lower ascii_word embed_unit first_k demo_qa q_reset None
    = Ok (Some [VStr (py "Use the settings menu")],
          with_cache demo_qa (demo_adapter [d_hit; d_noise])) /\
  exists docs c1 kept,
    get first_k (cache demo_qa) q_reset None = Ok (docs, c1) /\
    admitted (QAService.evaluate ascii_lower ascii_word embed_unit) (threshold demo_qa)
      q_reset docs kept /\
    [VStr (py "Use the settings menu")] = answers kept /\
    with_cache demo_qa (demo_adapter [d_hit; d_noise]) = with_cache demo_qa c1.
Proof.
  split; [exact gca_demo|].
  exact (CacheFacts.get_cached_answer_admitted ascii_lower ascii_word embed_unit first_k
           demo_qa q_reset None _ _ gca_demo).
Defined.

(** Witness of C5: [evaluate("", "anything")]. *)
Lemma evaluate_tokenless_witness :
  (MetricEvaluator.tokens ascii_lower ascii_word (py "") = [] \/
   MetricEvaluator.tokens ascii_lower ascii_word (py "anything") = []) /\
  ((MetricEvaluator.tokens ascii_lower ascii_word (py "") = [] /\
    MetricEvaluator.tokens ascii_lower ascii_word (py "anything") = [] ->
    ev (py "") (py "anything") = Err ValueError) /\
   (MetricEvaluator.tokens ascii_lower ascii_word (py "") <> [] \/
    MetricEvaluator.tokens ascii_lower ascii_word (py "anything") <> [] ->
    MetricEvaluator.lexical_cosine_similarity ascii_lower ascii_word (py "") (py "anything")
      = Ok 0%R /\
    (forall sem, MetricEvaluator.semantic_cosine_similarity embed_unit (py "") (py "anything")
                   = Ok sem -> ev (py "") (py "anything") = Ok (0.5 * 0 + 0.5 * sem)%R) /\
    (length (embed_unit (py "")) = length (embed_unit (py "anything")) ->
     embed_unit (py "") <> [] ->
     exists sem, MetricEvaluator.semantic_cosine_similarity embed_unit (py "") (py "anything")
                   = Ok sem))).
Proof.
  assert (H : MetricEvaluator.tokens ascii_lower ascii_word (py "") = [] \/
              MetricEvaluator.tokens ascii_lower ascii_word (py "anything") = [])
    by (left; reflexivity).
  split; [exact H|].
  exact (ScorerFacts.evaluate_tokenless ascii_lower ascii_word embed_unit (py "") (py "anything") H).
Defined.

(** Counterexample to C5: [evaluate("", "")] raises [ValueError]. *)
Lemma evaluate_empty_empty_raises : ev (py "") (py "") = Err ValueError.
Proof. reflexivity. Qed.

(** Witness of C9: [get(q, 2)] on the demo cache, then [get] without [k]
    and with [k = 0]. *)
Lemma get_k_persists_witness :
  exists docs a',
    (2 <> 0)%nat /\ get first_k (demo_adapter [d_hit; d_noise]) q_reset (Some 2%nat) = Ok (docs, a') /\
    exists vs,
      Retriever.retriever a' = Some {| view_store := vs; view_k := 2 |} /\
      docs = first_k vs 2 q_reset /\
      forall qs, Forall AdapterFacts.falsy_k qs ->
        exists a'', gets first_k a' qs = Ok (map (fun qk => first_k vs 2 (fst qk)) qs, a'').
Proof.
  do 2 eexists. split; [discriminate|]. split; [reflexivity|].
  apply (AdapterFacts.get_k_persists first_k (demo_adapter [d_hit; d_noise]) q_reset 2).
  - discriminate.
  - reflexivity.
Defined.

(** Witness of C3: a fresh service with no persisted cache, asked through
    [/ask] (which passes [k = 1]). *)
Lemma get_cached_answer_empty_cache_raises_witness :
  exists s,
    QAService.init 5 0.5 None (Some [d_hit]) [] = Ok s /\
    get_cached_answer ascii_lower ascii_word embed_unit first_k s (py "hello") (Some 1%nat)
      = Err AttributeError.
Proof.
  eexists. split; [reflexivity|].
  apply (ServiceFacts.get_cached_answer_empty_cache_raises ascii_lower ascii_word embed_unit
           first_k 5 0.5 (Some [d_hit]) []).
  reflexivity.
Defined.

(** Witness of C6: the stream emits ['Ответ: тест'] and the answer is
    [' тес']: the label's characters are removed at the start, and the
    final [т] of the answer goes with them. *)
Lemma get_llm_answer_strips_label_witness :
  exists s' tr,
    get_llm_answer ascii_lower first_k (invoke_reply da) (stream_chunks [Some labelled_answer])
      fmt_id fmt_id fmt_id demo_qa q_reset = Ok (stripped_answer, s', tr) /\
    exists msgs pre suf,
      In (EStream msgs) tr /\
      accumulate (stream_chunks [Some labelled_answer] msgs) = pre ++ stripped_answer ++ suf /\
      Forall (fun c => in_answer_label c = true) pre /\
      Forall (fun c => in_answer_label c = true) suf /\
      (forall c, hd_error stripped_answer = Some c -> in_answer_label c = false) /\
      (forall c, hd_error (rev stripped_answer) = Some c -> in_answer_label c = false).
Proof.
  do 2 eexists. split; [vm_compute; reflexivity|].
  eapply (ServiceFacts.get_llm_answer_strips_label ascii_lower first_k (invoke_reply da)
           (stream_chunks [Some labelled_answer]) fmt_id fmt_id fmt_id demo_qa q_reset).
  vm_compute. reflexivity.
Defined.

(** Witness of C7: a fresh service with [k_search = 5] and threshold 0.5,
    written twice with [{'reset password': 'Use the settings menu'}]. *)
Lemma set_cache_twice_raises_witness :
  exists s0,
    QAService.init 5 0.5 None (Some [d_hit]) [] = Ok s0 /\
    let d := {| page_content := q_reset;
                doc_metadata := [(py "answer", VStr (py "Use the settings menu"))] |} in
    exists s1,
      set_cache s0 [(q_reset, py "Use the settings menu")] = Ok s1 /\
      vectorstore (cache s1) = Some [d] /\ disk (cache s1) = Some [d] /\
      set_cache s1 [(q_reset, py "Use the settings menu")] = Err AttributeError /\
      Routes.set_cache s1 [(q_reset, py "Use the settings menu")] = (Routes.RFalse, s1).
Proof.
  eexists. split; [reflexivity|].
  apply (CacheWriteFacts.set_cache_twice_raises 5 0.5 (Some [d_hit]) []).
  reflexivity.
Defined.

End Examples.

(** ** What the matcher can capture *)
Module MatcherFacts.

Lemma oadd_some x y m : oadd x y = Some m -> exists a b, x = Some a /\ y = Some b /\ m = a + b.
Proof. destruct x, y; simpl; intros H; try discriminate. injection H as <-. eauto. Qed.

Lemma omax_some_l x y m : omax x y = Some m -> exists a, x = Some a /\ a <= m.
Proof. destruct x, y; simpl; intros H; try discriminate. injection H as <-. eexists; split; [reflexivity|lia]. Qed.

Lemma omax_some_r x y m : omax x y = Some m -> exists b, y = Some b /\ b <= m.
Proof. destruct x, y; simpl; intros H; try discriminate. injection H as <-. eexists; split; [reflexivity|lia]. Qed.

(** A recorded capture [(g, (i, j))] spans at most the bound of group [g]. *)
Definition span_ok (r : regex) (e : nat * (nat * nat)) : Prop :=
  forall m, group_bound (fst e) r = Some m -> snd (snd e) - fst (snd e) <= m.

(** When [mt] finds a match, its continuation was called on a suffix
    [s1], with the captures [new] prepended; the consumed part respects
    the length bounds of [r] and every new capture the bound of its group. *)
Lemma mt_found {A} f : forall n r s cp (k : pystr -> caps -> mres A) x,
  length s <= n ->
  mt f n r s cp k = MFound x ->
  exists s1 c1 new,
    k s1 c1 = MFound x /\ c1 = new ++ cp /\
    length s1 + min_len r <= length s /\
    (forall m, max_len r = Some m -> length s <= length s1 + m) /\
    Forall (span_ok r) new.
Proof.
  induction f as [|f IH]; intros n r s cp k x Hn H; [discriminate|].
  destruct r as [|p|a b|a b|a|g a]; simpl in H.
  - exists s, cp, []. split; [exact H|]. split; [reflexivity|]. simpl.
    split; [lia|]. split; [|constructor]. intros m Hm. injection Hm as <-. lia.
  - destruct s as [|c s']; [discriminate|]. destruct (p c); [|discriminate].
    exists s', cp, []. split; [exact H|]. split; [reflexivity|]. simpl.
    split; [lia|]. split; [|constructor]. intros m Hm. injection Hm as <-. lia.
  - destruct (IH n a s cp _ x Hn H) as (s1 & c1 & new1 & H1 & Hc1 & Hmin1 & Hmax1 & Hsp1).
    destruct (IH n b s1 c1 k x ltac:(lia) H1) as (s2 & c2 & new2 & H2 & Hc2 & Hmin2 & Hmax2 & Hsp2).
    exists s2, c2, (new2 ++ new1). split; [exact H2|].
    split; [subst c2 c1; apply app_assoc|]. simpl. split; [lia|]. split.
    + intros m Hm. apply oadd_some in Hm as (ma & mb & Ha & Hb & ->).
      specialize (Hmax1 _ Ha). specialize (Hmax2 _ Hb). lia.
    + apply Forall_app. split.
      * eapply Forall_impl; [|exact Hsp2]. intros e He m Hm. simpl in Hm.
        apply omax_some_r in Hm as (mb & Hb & Hle). specialize (He _ Hb). lia.
      * eapply Forall_impl; [|exact Hsp1]. intros e He m Hm. simpl in Hm.
        apply omax_some_l in Hm as (ma & Ha & Hle). specialize (He _ Ha). lia.
  - destruct (mt f n a s cp k) as [y| |] eqn:E; try discriminate.
    + injection H as <-.
      destruct (IH n a s cp k y Hn E) as (s1 & c1 & new & H1 & Hc1 & Hmin & Hmax & Hsp).
      exists s1, c1, new. split; [exact H1|]. split; [exact Hc1|]. simpl. split; [lia|]. split.
      * intros m Hm. apply omax_some_l in Hm as (ma & Ha & Hle). specialize (Hmax _ Ha). lia.
      * eapply Forall_impl; [|exact Hsp]. intros e He m Hm. simpl in Hm.
        apply omax_some_l in Hm as (ma & Ha & Hle). specialize (He _ Ha). lia.
    + destruct (IH n b s cp k x Hn H) as (s1 & c1 & new & H1 & Hc1 & Hmin & Hmax & Hsp).
      exists s1, c1, new. split; [exact H1|]. split; [exact Hc1|]. simpl. split; [lia|]. split.
      * intros m Hm. apply omax_some_r in Hm as (mb & Hb & Hle). specialize (Hmax _ Hb). lia.
      * eapply Forall_impl; [|exact Hsp]. intros e He m Hm. simpl in Hm.
        apply omax_some_r in Hm as (mb & Hb & Hle). specialize (He _ Hb). lia.
  - destruct (mt f n a s cp _) as [y| |] eqn:E; try discriminate.
    + injection H as <-.
      destruct (IH n a s cp _ y Hn E) as (s1 & c1 & new1 & H1 & Hc1 & Hmin1 & _ & Hsp1).
      destruct (length s1 <? length s) eqn:Hlt; [|discriminate].
      apply Nat.ltb_lt in Hlt.
      destruct (IH n (RStar a) s1 c1 k y ltac:(lia) H1)
        as (s2 & c2 & new2 & H2 & Hc2 & Hmin2 & _ & Hsp2).
      exists s2, c2, (new2 ++ new1). split; [exact H2|].
      split; [subst c2 c1; apply app_assoc|]. simpl in *. split; [lia|]. split.
      * discriminate.
      * apply Forall_app. split; [exact Hsp2|exact Hsp1].
    + exists s, cp, []. split; [exact H|]. split; [reflexivity|]. simpl.
      split; [lia|]. split; [discriminate|constructor].
  - destruct (IH n a s cp _ x Hn H) as (s1 & c1 & new & H1 & Hc1 & Hmin & Hmax & Hsp).
    exists s1, ((g, (n - length s, n - length s1)) :: c1),
      ((g, (n - length s, n - length s1)) :: new).
    split; [exact H1|]. split; [subst c1; reflexivity|]. simpl. split; [lia|]. split.
    + exact Hmax.
    + constructor.
      * intros m Hm. simpl in Hm. rewrite Nat.eqb_refl in Hm. simpl.
        apply omax_some_l in Hm as (ma & Ha & Hle). specialize (Hmax _ Ha). lia.
      * eapply Forall_impl; [|exact Hsp]. intros [g' sp] He m Hm. simpl in Hm |- *.
        destruct (Nat.eqb g' g).
        -- apply omax_some_r in Hm as (mb & Hb & Hle). specialize (He _ Hb). simpl in He. lia.
        -- exact (He _ Hm).
Qed.

Lemma search_from_found r n fuel s m :
  length s <= n -> search_from r n fuel s = MFound m ->
  exists s', length s' <= length s /\
    mt fuel n r s' []
      (fun s1 c1 => MFound {| m_start := n - length s'; m_end := n - length s1; m_caps := c1 |})
      = MFound m.
Proof.
  induction s as [|c s IH]; intros Hn H; simpl in H.
  - destruct (mt fuel n r [] [] _) eqn:E; try discriminate.
    injection H as <-. exists []. split; [reflexivity|exact E].
  - destruct (mt fuel n r (c :: s) [] _) eqn:E.
    + injection H as <-. exists (c :: s). split; [reflexivity|exact E].
    + destruct (IH ltac:(simpl in Hn; lia) H) as (s' & Hs' & Hm).
      exists s'. split; [simpl; lia|exact Hm].
    + discriminate.
Qed.

Lemma length_lstrip_by p s : length (lstrip_by p s) <= length s.
Proof. induction s as [|c s IH]; simpl; [lia|]. destruct (p c); simpl; lia. Qed.

Lemma length_strip_by p s : length (strip_by p s) <= length s.
Proof.
  unfold strip_by. rewrite length_rev.
  pose proof (length_lstrip_by p (rev (lstrip_by p s))) as H1.
  rewrite length_rev in H1. pose proof (length_lstrip_by p s). lia.
Qed.

Lemma length_slice s i j : length (slice s i j) <= j - i.
Proof. unfold slice. rewrite length_firstn. lia. Qed.

(** A match of [_strptime]'s pattern for ['%d-%m-%Y'] needs 8 characters. *)
Lemma strptime_dmY_short s :
  length s < 8 -> Reader.strptime_dmY s = None \/ Reader.strptime_dmY s = Some (Err ValueError).
Proof.
  intros Hs. unfold Reader.strptime_dmY, re_match.
  destruct (mt _ _ Reader.dmY_pattern s [] _) as [m| |] eqn:E; auto.
  exfalso. apply mt_found in E; [|lia].
  destruct E as (s1 & c1 & new & _ & _ & Hmin & _).
  assert (H8 : min_len Reader.dmY_pattern = 8) by reflexivity. lia.
Qed.

(** The date group of the metadata pattern captures at most 7 characters. *)
Lemma metadata_date_group text m ds :
  re_search Reader.metadata_pattern text = MFound m ->
  group text m 2 = Some ds -> length ds <= 7.
Proof.
  unfold re_search. intros Hs Hg.
  apply search_from_found in Hs as (s' & Hs' & Hm); [|lia].
  apply mt_found in Hm as (s1 & c1 & new & Hk & Hc1 & _ & _ & Hsp); [|lia].
  injection Hk as <-. rewrite app_nil_r in Hc1. subst c1.
  unfold group in Hg. simpl in Hg.
  destruct (find _ new) as [[g [i j]]|] eqn:Hf; [|discriminate].
  injection Hg as <-.
  apply find_some in Hf as [Hin Heq].
  destruct g as [|[|[|g]]]; simpl in Heq; try discriminate.
  rewrite Forall_forall in Hsp. specialize (Hsp _ Hin 7 eq_refl). simpl in Hsp.
  pose proof (length_slice text i j). lia.
Qed.

End MatcherFacts.

(** ** Reading the corpus *)
Module ReaderExtraFacts.
Import Reader.

(** No metadata block ever yields a date: the text either comes back
    unchanged with empty metadata, or the block's date is [None]. *)
Theorem extract_metadata_never_dated text clean md :
  extract_metadata text = Some (clean, md) ->
  (clean = text /\ md = []) \/
  exists link, md = [(py "link", VStr link); (py "date", VNone)].
Proof.
  unfold extract_metadata.
  destruct (re_search metadata_pattern text) as [m| |] eqn:Hs.
  - destruct (group text m 0) as [mtext|]; [|discriminate].
    destruct (group text m 1) as [l|]; [|discriminate].
    destruct (group text m 2) as [ds|] eqn:Hg; [|discriminate].
    pose proof (MatcherFacts.metadata_date_group _ _ _ Hs Hg) as Hlen.
    pose proof (MatcherFacts.length_strip_by py_isspace ds) as Hst.
    destruct (MatcherFacts.strptime_dmY_short (py_strip ds) ltac:(unfold py_strip; lia))
      as [E|E]; cbv zeta; rewrite E; [discriminate|].
    intros H. injection H as <- <-. right. eexists. reflexivity.
  - intros H. injection H as <- <-. left. split; reflexivity.
  - discriminate.
Qed.

Lemma read_documents_no_markdown files :
  Forall (fun f => endswith (fst f) (py ".md") = false) files -> read_documents files = Some [].
Proof.
  induction 1 as [|[file content] files Hf _ IH]; simpl in *; [reflexivity|].
  rewrite Hf. exact IH.
Qed.

End ReaderExtraFacts.

(** ** The score *)
Module MetricFacts.
Import MetricEvaluator.

Local Open Scope R_scope.

Lemma dot_nat_comm u v : dot_nat u v = dot_nat v u.
Proof.
  revert v. induction u as [|x u IH]; intros [|y v]; simpl; auto. rewrite IH. lia.
Qed.

Lemma dot_nat_map_perm (f g : pystr -> nat) l l' :
  Permutation l l' -> dot_nat (map f l) (map g l) = dot_nat (map f l') (map g l').
Proof. induction 1; simpl; lia. Qed.

Lemma dot_R_comm u v : dot_R u v = dot_R v u.
Proof.
  revert v. induction u as [|x u IH]; intros [|y v]; simpl; auto. rewrite IH. ring.
Qed.

Section Facts.

Variable lower : pystr -> pystr.
Variable is_word : N -> bool.
Variable embed_query : pystr -> list R.

Lemma vocabulary_perm a b :
  Permutation (vocabulary lower is_word a b) (vocabulary lower is_word b a).
Proof.
  unfold vocabulary. apply NoDup_Permutation; try apply NoDup_nodup.
  intros w. rewrite !nodup_In, !in_app_iff. tauto.
Qed.

Lemma lexical_sym a b :
  lexical_cosine_similarity lower is_word a b = lexical_cosine_similarity lower is_word b a.
Proof.
  pose proof (vocabulary_perm a b) as Hp.
  unfold lexical_cosine_similarity.
  destruct (vocabulary lower is_word a b) as [|w ws];
    destruct (vocabulary lower is_word b a) as [|w' ws'].
  - reflexivity.
  - apply Permutation_nil in Hp. discriminate.
  - apply Permutation_sym, Permutation_nil in Hp. discriminate.
  - unfold count_vector. rewrite !(dot_nat_map_perm _ _ _ _ Hp).
    set (ua := map (fun w0 => count_occ pystr_dec (tokens lower is_word a) w0) (w' :: ws')).
    set (ub := map (fun w0 => count_occ pystr_dec (tokens lower is_word b) w0) (w' :: ws')).
    rewrite (dot_nat_comm ub ua), (Rmult_comm (scale_nat (dot_nat ub ub))).
    reflexivity.
Qed.

Lemma semantic_sym a b :
  semantic_cosine_similarity embed_query a b = semantic_cosine_similarity embed_query b a.
Proof.
  unfold semantic_cosine_similarity, get_embeddings, cosine_R.
  rewrite (Nat.eqb_sym (length (embed_query b))).
  destruct (length (embed_query a) =? length (embed_query b))%nat eqn:E; [|reflexivity].
  apply Nat.eqb_eq in E. rewrite E. simpl.
  rewrite (dot_R_comm (embed_query b) (embed_query a)),
    (Rmult_comm (scale_R (dot_R (embed_query b) (embed_query b)))).
  reflexivity.
Qed.

(** [evaluate] is symmetric: swapping the question and the document text
    changes neither the score nor whether it raises. *)
Theorem evaluate_symmetric a b :
  evaluate lower is_word embed_query a b = evaluate lower is_word embed_query b a.
Proof.
  unfold evaluate. rewrite lexical_sym, semantic_sym. reflexivity.
Qed.

End Facts.
End MetricFacts.

(** ** Filtering against the threshold *)
Module FilterFacts.
Import Retriever QAService.

Section Facts.

Variable lower : pystr -> pystr.
Variable is_word : N -> bool.
Variable embed_query : pystr -> list R.
Variable similarity_search : store -> nat -> pystr -> list Document.

Local Abbreviation ev := (QAService.evaluate lower is_word embed_query).

Lemma admitted_scores th q docs kept :
  admitted ev th q docs kept -> forall d, In d docs -> exists sc, ev q (page_content d) = Ok sc.
Proof.
  induction 1; intros x Hx; [destruct Hx| |];
    (destruct Hx as [<-|Hx]; [eexists; eassumption|eauto]).
Qed.

Lemma filter_loop_complete th q result docs :
  (forall d, In d docs -> exists sc, ev q (page_content d) = Ok sc) ->
  exists kept, filter_loop lower is_word embed_query th q result docs = Ok (result ++ kept).
Proof.
  revert result. induction docs as [|d ds IH]; intros result Hall; simpl.
  - exists []. rewrite app_nil_r. reflexivity.
  - destruct (Hall d (or_introl eq_refl)) as (sc & Hsc).
    rewrite Hsc. simpl.
    assert (Hds : forall x, In x ds -> exists sc, ev q (page_content x) = Ok sc)
      by (intros x Hx; apply Hall; right; exact Hx).
    destruct (Rlt_dec th sc).
    + destruct (IH (result ++ [d]) Hds) as (kept & ->).
      exists (d :: kept). rewrite <- app_assoc. reflexivity.
    + exact (IH result Hds).
Qed.

Lemma admitted_mono th1 th2 q docs k1 k2 :
  (th1 <= th2)%R -> admitted ev th1 q docs k1 -> admitted ev th2 q docs k2 -> subseq k2 k1.
Proof.
  intros Hle H1. revert k2.
  induction H1 as [|d ds ks sc Hsc Hlt H1 IH|d ds ks sc Hsc Hge H1 IH]; intros k2 H2.
  - inversion H2. constructor.
  - inversion H2 as [|d' ds' ks' sc' Hsc' Hlt' H2'|d' ds' ks' sc' Hsc' Hge' H2']; subst.
    + constructor. apply IH. exact H2'.
    + constructor. apply IH. exact H2'.
  - inversion H2 as [|d' ds' ks' sc' Hsc' Hlt' H2'|d' ds' ks' sc' Hsc' Hge' H2']; subst.
    + rewrite Hsc in Hsc'. injection Hsc' as <-. lra.
    + apply IH. exact H2'.
Qed.

(** Raising the threshold only removes documents: with a threshold at least
    as high, [filter_based_on_metric] still returns (it raises on the same
    inputs) and keeps a subsequence of what the lower threshold kept. *)
Theorem filter_based_on_metric_monotone s1 s2 q docs r1 :
  (threshold s1 <= threshold s2)%R ->
  filter_based_on_metric lower is_word embed_query s1 q docs = Ok r1 ->
  exists r2, filter_based_on_metric lower is_word embed_query s2 q docs = Ok r2 /\ subseq r2 r1.
Proof.
  intros Hle H1. unfold filter_based_on_metric in *.
  destruct (CacheFacts.filter_loop_admits _ _ _ _ _ _ _ _ H1) as (k1 & -> & Hk1).
  destruct (filter_loop_complete (threshold s2) q [] docs (admitted_scores _ _ _ _ Hk1))
    as (k2 & Hf2).
  exists ([] ++ k2). split; [exact Hf2|].
  destruct (CacheFacts.filter_loop_admits _ _ _ _ _ _ _ _ Hf2) as (k2' & Heq & Hk2).
  simpl in Heq |- *. subst k2'.
  exact (admitted_mono _ _ _ _ _ _ Hle Hk1 Hk2).
Qed.

End Facts.
End FilterFacts.

(** ** Building, persisting and reloading the indexes *)
Module InitFacts.
Import Retriever QAService.

(** With no persisted corpus index and no [.md] file in the data
    directory, the [Reader] returns no document and [QAService.__init__]
    raises [IndexError] (FAISS cannot index an empty batch). *)
Theorem init_without_corpus_raises k th cache_disk files :
  Forall (fun f => endswith (fst f) (py ".md") = false) files ->
  exists docs, Reader.read_documents files = Some docs /\
    init k th cache_disk None docs = Err IndexError.
Proof.
  intros H. exists []. split.
  - apply ReaderExtraFacts.read_documents_no_markdown. exact H.
  - destruct cache_disk; reflexivity.
Qed.

(** With a persisted corpus index, [QAService.__init__] never raises and
    does not use the documents: the corpus retriever queries the stored
    index with [k_search]; the cache retriever is set up over the stored
    cache index if there is one and is absent otherwise. *)
Theorem init_with_persisted_index k th cache_disk vs :
  exists s,
    (forall docs, init k th cache_disk (Some vs) docs = Ok s) /\
    Retriever.retriever (retriever s) = Some {| view_store := vs; view_k := k |} /\
    Retriever.retriever (cache s) =
      match cache_disk with
      | Some cs => Some {| view_store := cs; view_k := k |}
      | None => None
      end /\
    threshold s = th.
Proof.
  destruct cache_disk as [cs|]; eexists; (split; [intros docs; reflexivity|]);
    repeat split; reflexivity.
Qed.

(** Without a persisted corpus index, [QAService.__init__] indexes the
    documents and saves them; the next start loads that index and ignores
    the documents it is then given. *)
Theorem init_builds_then_reloads k th cache_disk docs :
  docs <> [] ->
  exists s,
    init k th cache_disk None docs = Ok s /\
    Retriever.retriever (retriever s) = Some {| view_store := docs; view_k := k |} /\
    disk (retriever s) = Some docs /\
    forall k' th' cache_disk' docs', exists s',
      init k' th' cache_disk' (disk (retriever s)) docs' = Ok s' /\
      Retriever.retriever (retriever s') = Some {| view_store := docs; view_k := k' |}.
Proof.
  intros Hne. destruct docs as [|d ds]; [contradiction|].
  destruct cache_disk as [cs|]; eexists; (split; [reflexivity|]);
    (split; [reflexivity|]); (split; [reflexivity|]);
    intros k' th' cache_disk' docs'; destruct cache_disk'; eexists;
    (split; [reflexivity|reflexivity]).
Qed.

(** When [set_cache] returns, the cache had no store and the dict was
    not empty: the pairs, one document each in the dict's order, become
    the cache index, which is saved and served with [k_search]; the
    corpus side and the threshold are untouched. *)
Theorem set_cache_writes_fresh s data s' :
  QAService.set_cache s data = Ok s' ->
  let docs := map (fun '(question, answer) =>
        {| page_content := question; doc_metadata := [(py "answer", VStr answer)] |}) data in
  vectorstore (cache s) = None /\ data <> [] /\
  vectorstore (cache s') = Some docs /\ disk (cache s') = Some docs /\
  Retriever.retriever (cache s') = Some {| view_store := docs; view_k := k_search (cache s) |} /\
  retriever s' = retriever s /\ threshold s' = threshold s.
Proof.
  unfold QAService.set_cache, set, from_documents.
  destruct data as [|[q a] data]; simpl; [discriminate|].
  destruct (vectorstore (cache s)) as [vs|] eqn:Hc; simpl; [discriminate|].
  intros H. injection H as <-.
  split; [reflexivity|]. split; [discriminate|]. repeat split; reflexivity.
Qed.

(** When the cache already has a store, [set_cache] on a non-empty dict
    raises [AttributeError] ([Retriever.set] calls [merge], which [FAISS]
    lacks) before anything is saved. *)
Theorem set_cache_existing_store_raises s data :
  vectorstore (cache s) <> None -> data <> [] ->
  QAService.set_cache s data = Err AttributeError.
Proof.
  intros Hc Hne. unfold QAService.set_cache, set, from_documents.
  destruct data as [|[q a] data]; [contradiction|]. simpl.
  destruct (vectorstore (cache s)) as [vs|]; [reflexivity|contradiction].
Qed.

(** What [set_cache] writes survives a restart: a service started on the
    saved cache index serves the same cache documents, and, the store
    being there, cannot write the cache again. *)
Theorem set_cache_survives_restart s data s' k th index_disk docs :
  QAService.set_cache s data = Ok s' ->
  exists vs, vectorstore (cache s') = Some vs /\
    forall s'', init k th (disk (cache s')) index_disk docs = Ok s'' ->
      Retriever.retriever (cache s'') = Some {| view_store := vs; view_k := k |} /\
      forall data', data' <> [] -> QAService.set_cache s'' data' = Err AttributeError.
Proof.
  intros H. unfold QAService.set_cache, set, from_documents in H.
  destruct data as [|[q a] data]; simpl in H; [discriminate|].
  destruct (vectorstore (cache s)); simpl in H; [discriminate|].
  injection H as <-. simpl. eexists. split; [reflexivity|].
  intros s''. unfold init. simpl.
  destruct (match vectorstore (load (new k index_disk)) with
            | Some _ => Ok (load (new k index_disk))
            | None => build (load (new k index_disk)) docs
            end) as [r1|e]; simpl; [|discriminate].
  destruct (setup r1) as [r2|e]; simpl; [|discriminate].
  intros E. injection E as <-. split; [reflexivity|].
  intros data' Hne. unfold QAService.set_cache, set, from_documents.
  destruct data' as [|[q' a'] data']; [contradiction|]. reflexivity.
Qed.

End InitFacts.

(** ** The routes *)
Module RouteFacts.
Import Retriever QAService Routes.

Section Facts.

Variable lower : pystr -> pystr.
Variable is_word : N -> bool.
Variable embed_query : pystr -> list R.
Variable similarity_search : store -> nat -> pystr -> list Document.
Variable invoke : pystr -> pystr.
Variable stream : list message -> list (option pystr).
Variables fmt_intent fmt_system fmt_user : pystr -> pystr.

Local Abbreviation gca := (get_cached_answer lower is_word embed_query similarity_search).
Local Abbreviation gla :=
  (get_llm_answer lower similarity_search invoke stream fmt_intent fmt_system fmt_user).
Local Abbreviation ask := (Routes.ask lower is_word embed_query similarity_search
                            invoke stream fmt_intent fmt_system fmt_user).
Local Abbreviation ask_llm := (Routes.ask_llm lower similarity_search
                                invoke stream fmt_intent fmt_system fmt_user).
Local Abbreviation reachable := (Routes.reachable lower is_word embed_query similarity_search
                                  invoke stream fmt_intent fmt_system fmt_user).

Lemma gca_state s q k r s1 :
  gca s q k = Ok (r, s1) ->
  exists docs c1, get similarity_search (cache s) q k = Ok (docs, c1) /\ s1 = with_cache s c1.
Proof.
  unfold get_cached_answer.
  destruct (get similarity_search (cache s) q k) as [[docs c1]|e]; simpl; [|discriminate].
  intros H. exists docs, c1. split; [reflexivity|].
  destruct docs as [|d ds].
  - injection H as _ <-. reflexivity.
  - destruct (filter_based_on_metric lower is_word embed_query s q (d :: ds))
      as [[|x xs]|e]; simpl in H; try discriminate; injection H as _ <-; reflexivity.
Qed.

Lemma get_view a q k docs a' :
  get similarity_search a q k = Ok (docs, a') -> exists v, Retriever.retriever a' = Some v.
Proof.
  unfold get. destruct (Retriever.retriever a); [|discriminate].
  intros H. injection H as _ <-. eexists. reflexivity.
Qed.

Lemma gla_state s q answer s' tr :
  gla s q = Ok (answer, s', tr) ->
  cache s' = cache s /\ threshold s' = threshold s /\
  (forall v, Retriever.retriever (retriever s) = Some v -> exists v', Retriever.retriever (retriever s') = Some v').
Proof.
  unfold get_llm_answer.
  destruct (detect_intent lower invoke fmt_intent q).
  - destruct (get similarity_search (retriever s) q None) as [[docs r1]|e] eqn:Hg;
      simpl; [|discriminate].
    intros H. injection H as _ <- _. split; [reflexivity|]. split; [reflexivity|].
    intros v _. exact (get_view _ _ _ _ _ Hg).
  - simpl. intros H. injection H as _ <- _. split; [reflexivity|]. split; [reflexivity|].
    intros v Hv. exists v. exact Hv.
Qed.

Lemma gla_ok s q v :
  Retriever.retriever (retriever s) = Some v -> exists answer s' tr, gla s q = Ok (answer, s', tr).
Proof.
  intros Hv. unfold get_llm_answer.
  destruct (detect_intent lower invoke fmt_intent q); simpl.
  - unfold get at 1. rewrite Hv. simpl. do 3 eexists. reflexivity.
  - do 3 eexists. reflexivity.
Qed.

(** [/ask] on a cache hit: when the cache lookup with [k = 1] finds
    documents and some pass the threshold, the response is their answers
    and the language model is not used (the result does not depend on it). *)
Theorem ask_cache_hit s q docs c1 kept :
  get similarity_search (cache s) q (Some 1%nat) = Ok (docs, c1) -> docs <> [] ->
  filter_based_on_metric lower is_word embed_query s q docs = Ok kept -> kept <> [] ->
  ask s q = (RList (answers kept), with_cache s c1).
Proof.
  intros Hg Hd Hf Hk. unfold Routes.ask, get_cached_answer. rewrite Hg. simpl.
  destruct docs as [|d ds]; [contradiction|]. rewrite Hf. simpl.
  destruct kept as [|x xs]; [contradiction|]. reflexivity.
Qed.

(** [/ask] on a cache miss: when the cache lookup finds nothing, or finds
    documents none of which passes the threshold, the response is the
    language model's answer, computed on the service after the lookup. *)
Theorem ask_falls_back s q docs c1 answer s2 tr :
  get similarity_search (cache s) q (Some 1%nat) = Ok (docs, c1) ->
  docs = [] \/ filter_based_on_metric lower is_word embed_query s q docs = Ok [] ->
  gla (with_cache s c1) q = Ok (answer, s2, tr) ->
  ask s q = (RStr answer, s2).
Proof.
  intros Hg Hmiss Hl. unfold Routes.ask, get_cached_answer. rewrite Hg. simpl.
  destruct docs as [|d ds].
  - simpl. rewrite Hl. reflexivity.
  - destruct Hmiss as [Hn|Hf]; [discriminate|]. rewrite Hf. simpl. rewrite Hl. reflexivity.
Qed.

(** [/ask] always passes [k = 1], and [Retriever.get] keeps a truthy [k]
    in the cache retriever: after any [/ask] on a service whose cache is
    set up, the cache retriever returns one document per lookup, whatever
    the outcome of the request. *)
Theorem ask_sets_cache_k s q v :
  Retriever.retriever (cache s) = Some v ->
  Retriever.retriever (cache (snd (ask s q))) = Some {| view_store := view_store v; view_k := 1 |}.
Proof.
  intros Hv.
  assert (Hg : get similarity_search (cache s) q (Some 1%nat) =
    Ok (similarity_search (view_store v) 1 q,
        {| k_search := k_search (cache s); vectorstore := vectorstore (cache s);
           Retriever.retriever := Some {| view_store := view_store v; view_k := 1 |};
           disk := disk (cache s) |})) by (unfold get; rewrite Hv; reflexivity).
  unfold Routes.ask.
  destruct (gca s q (Some 1%nat)) as [[r s1]|e] eqn:Hgca.
  - destruct (gca_state _ _ _ _ _ Hgca) as (docs & c1 & Hg' & ->).
    rewrite Hg in Hg'. injection Hg' as _ <-.
    destruct (falsy r).
    + destruct (gla _ q) as [[[answer s2] tr]|e] eqn:Hl; simpl.
      * destruct (gla_state _ _ _ _ _ Hl) as [-> _]. reflexivity.
      * reflexivity.
    + reflexivity.
  - simpl. unfold after_cache_get. rewrite Hg. reflexivity.
Qed.

Lemma reachable_retriever s : reachable s -> exists v, Retriever.retriever (retriever s) = Some v.
Proof.
  induction 1 as [k th cd idisk data s Hinit|s q _ [v Hv]|s q _ [v Hv]|s data _ [v Hv]].
  - unfold init in Hinit.
    destruct (match vectorstore (load (new k cd)) with
              | Some _ => setup (load (new k cd))
              | None => Ok (load (new k cd))
              end) as [c1|e]; simpl in Hinit; [|discriminate].
    destruct (match vectorstore (load (new k idisk)) with
              | None => build (load (new k idisk)) data
              | Some _ => Ok (load (new k idisk))
              end) as [r1|e]; simpl in Hinit; [|discriminate].
    unfold setup in Hinit. destruct (vectorstore r1); simpl in Hinit; [|discriminate].
    injection Hinit as <-. eexists. reflexivity.
  - unfold Routes.ask.
    destruct (gca s q (Some 1%nat)) as [[r s1]|e] eqn:Hgca.
    + destruct (gca_state _ _ _ _ _ Hgca) as (docs & c1 & _ & ->).
      destruct (falsy r).
      * destruct (gla (with_cache s c1) q) as [[[answer s2] tr]|e] eqn:Hl; simpl.
        -- exact (proj2 (proj2 (gla_state _ _ _ _ _ Hl)) v Hv).
        -- exists v. exact Hv.
      * exists v. exact Hv.
    + simpl. unfold after_cache_get.
      destruct (get similarity_search (cache s) q (Some 1%nat)) as [[docs c1]|e']; exists v; exact Hv.
  - unfold Routes.ask_llm.
    destruct (gla s q) as [[[answer s2] tr]|e] eqn:Hl; simpl.
    + exact (proj2 (proj2 (gla_state _ _ _ _ _ Hl)) v Hv).
    + exists v. exact Hv.
  - unfold Routes.set_cache, QAService.set_cache.
    destruct (set (cache s) _) as [c1|e]; simpl; exists v; exact Hv.
Qed.

(** On every state the service reaches from [QAService.__init__] through
    the routes, [get_llm_answer] does not raise: [/ask-llm] always responds
    with an answer string, and [/ask] never responds with [null] or [[]]
    (only [false], a non-empty list of cached answers, or a string). *)
Theorem reachable_responses s q :
  reachable s ->
  (exists answer s', ask_llm s q = (RStr answer, s')) /\
  (fst (ask s q) = RFalse \/ (exists answer, fst (ask s q) = RStr answer) \/
   exists a l, fst (ask s q) = RList (a :: l)).
Proof.
  intros Hr. destruct (reachable_retriever s Hr) as [v Hv]. split.
  - destruct (gla_ok s q v Hv) as (answer & s' & tr & Hl).
    exists answer, s'. unfold Routes.ask_llm. rewrite Hl. reflexivity.
  - unfold Routes.ask.
    destruct (gca s q (Some 1%nat)) as [[r s1]|e] eqn:Hgca; [|left; reflexivity].
    destruct (gca_state _ _ _ _ _ Hgca) as (docs & c1 & _ & ->).
    destruct r as [[|a l]|]; simpl.
    + destruct (gla_ok (with_cache s c1) q v Hv) as (answer & s' & tr & Hl).
      rewrite Hl. right. left. eexists. reflexivity.
    + right. right. eexists _, _. reflexivity.
    + destruct (gla_ok (with_cache s c1) q v Hv) as (answer & s' & tr & Hl).
      rewrite Hl. right. left. eexists. reflexivity.
Qed.

Local Abbreviation handle := (Routes.handle lower is_word embed_query similarity_search
                               invoke stream fmt_intent fmt_system fmt_user).
Local Abbreviation serve := (Routes.serve lower is_word embed_query similarity_search
                              invoke stream fmt_intent fmt_system fmt_user).

Lemma get_store a q k docs a' :
  get similarity_search a q k = Ok (docs, a') -> vectorstore a' = vectorstore a.
Proof.
  unfold get. destruct (Retriever.retriever a); [|discriminate].
  intros H. injection H as _ <-. reflexivity.
Qed.

Lemma ask_store s q : vectorstore (cache (snd (ask s q))) = vectorstore (cache s).
Proof.
  unfold Routes.ask.
  destruct (gca s q (Some 1%nat)) as [[r s1]|e] eqn:Hgca.
  - destruct (gca_state _ _ _ _ _ Hgca) as (docs & c1 & Hg & ->).
    pose proof (get_store _ _ _ _ _ Hg) as Hs.
    destruct (falsy r).
    + destruct (gla (with_cache s c1) q) as [[[answer s2] tr]|e] eqn:Hl; simpl.
      * destruct (gla_state _ _ _ _ _ Hl) as [-> _]. exact Hs.
      * exact Hs.
    + exact Hs.
  - simpl. unfold after_cache_get.
    destruct (get similarity_search (cache s) q (Some 1%nat)) as [[docs c1]|e'] eqn:Hg;
      [exact (get_store _ _ _ _ _ Hg)|reflexivity].
Qed.

Lemma handle_store s req vs :
  vectorstore (cache s) = Some vs ->
  (forall data, req = SetCacheReq data -> fst (handle s req) = RFalse) /\
  vectorstore (cache (snd (handle s req))) = Some vs.
Proof.
  intros Hs. destruct req as [q|q|data]; simpl.
  - split; [discriminate|]. rewrite ask_store. exact Hs.
  - split; [discriminate|]. unfold Routes.ask_llm.
    destruct (gla s q) as [[[answer s2] tr]|e] eqn:Hl; simpl; [|exact Hs].
    destruct (gla_state _ _ _ _ _ Hl) as [-> _]. exact Hs.
  - unfold Routes.set_cache, QAService.set_cache, set, from_documents.
    destruct data as [|[q a] data]; simpl; [split; [reflexivity|exact Hs]|].
    rewrite Hs. simpl. split; [reflexivity|exact Hs].
Qed.

(** Once the cache has a store (a cache index persisted at start-up, or a
    first successful [/set-cache]), every later [/set-cache] responds
    [false], whatever requests come in between, and the cache store never
    changes again. *)
Theorem set_cache_route_closed s vs reqs :
  vectorstore (cache s) = Some vs ->
  Forall2 (fun req r => forall data, req = SetCacheReq data -> r = RFalse)
    reqs (fst (serve s reqs)) /\
  vectorstore (cache (snd (serve s reqs))) = Some vs.
Proof.
  revert s. induction reqs as [|req reqs IH]; intros s Hs; cbn [Routes.serve].
  - split; [constructor|exact Hs].
  - destruct (handle_store s req vs Hs) as [Hr Hc].
    destruct (handle s req) as [r s1]. simpl in Hr, Hc.
    destruct (IH s1 Hc) as [IH1 IH2].
    destruct (serve s1 reqs) as [rs s2]. simpl in *.
    split; [constructor; assumption|exact IH2].
Qed.

End Facts.

(** [/set-cache] responds [null] only when the cache has no store and the
    JSON object is not empty; an empty object (FAISS cannot index an
    empty batch) or an existing cache store (no [merge] on [FAISS]) makes
    it respond [false] with the service unchanged. *)
Theorem set_cache_route_response s data :
  (data = [] \/ vectorstore (cache s) <> None -> Routes.set_cache s data = (RFalse, s)) /\
  (data <> [] -> vectorstore (cache s) = None ->
     exists s', QAService.set_cache s data = Ok s' /\ Routes.set_cache s data = (RNone, s')).
Proof.
  unfold Routes.set_cache, QAService.set_cache, set, from_documents. split.
  - intros [->|Hc]; [reflexivity|].
    destruct data as [|[q a] data]; [reflexivity|]. simpl.
    destruct (vectorstore (cache s)); [reflexivity|contradiction].
  - intros Hne Hc. destruct data as [|[q a] data]; [contradiction|]. simpl.
    rewrite Hc. eexists. split; reflexivity.
Qed.

(** With the [DummyLLM] the routes use, [get_llm_answer] answers every
    question with ['Это пример ответа от модели. '] (the chunk with the
    trailing [Ответ:] stripped, the space before it kept), never queries
    the corpus retriever, and leaves the service unchanged; the only
    assumption is that [str.lower] keeps ['да']. *)
Theorem dummy_llm_answer lower similarity_search fmt_intent fmt_system fmt_user s q :
  lower [0x434; 0x430]%N = [0x434; 0x430]%N ->
  get_llm_answer lower similarity_search DummyLLM.invoke DummyLLM.stream
      fmt_intent fmt_system fmt_user s q =
    Ok (firstn 29 DummyLLM.content, s,
        [EInvoke (fmt_intent q);
         EStream [SystemMessage (fmt_system []); HumanMessage (fmt_user q)]]).
Proof.
  intros Hl. unfold get_llm_answer, detect_intent, DummyLLM.invoke. rewrite Hl.
  simpl. destruct s. reflexivity.
Qed.

End RouteFacts.

(** ** Concrete runs of the properties above *)
Module ExtraExamples.
Import Retriever QAService Concrete Routes.

Local Abbreviation ev := (MetricEvaluator.evaluate ascii_lower ascii_word embed_unit).

Lemma filter_hit_only :
  filter_based_on_metric ascii_lower ascii_word embed_unit demo_qa q_reset [d_hit] = Ok [d_hit].
Proof.
  unfold filter_based_on_metric.
  cbn [filter_loop QAService.threshold demo_qa page_content d_hit].
  unfold QAService.evaluate. rewrite Examples.ev_reset_self. cbn [bind].
  destruct (Rlt_dec 0.6 (0.5 * 1 + 0.5 * 1)) as [_|Hn]; [|lra].
  reflexivity.
Qed.

(** Witness of [ReaderExtraFacts.extract_metadata_never_dated]. *)
Lemma extract_metadata_never_dated_witness :
  Reader.extract_metadata (py "Body Metadata link: https://x.test/a date: 03-2024")
    = Some (py "Body", [(py "link", VStr (py "https://x.test/a")); (py "date", VNone)]) /\
  ((py "Body" = py "Body Metadata link: https://x.test/a date: 03-2024" /\
    [(py "link", VStr (py "https://x.test/a")); (py "date", VNone)] = []) \/
   exists link, [(py "link", VStr (py "https://x.test/a")); (py "date", VNone)]
                = [(py "link", VStr link); (py "date", VNone)]).
Proof.
  assert (H : Reader.extract_metadata (py "Body Metadata link: https://x.test/a date: 03-2024")
    = Some (py "Body", [(py "link", VStr (py "https://x.test/a")); (py "date", VNone)]))
    by (vm_compute; reflexivity).
  split; [exact H|].
  exact (ReaderExtraFacts.extract_metadata_never_dated _ _ _ H).
Defined.

(** Witness of [FilterFacts.filter_based_on_metric_monotone]. *)
Lemma filter_based_on_metric_monotone_witness :
  (threshold demo_qa <= threshold strict_qa)%R /\
  filter_based_on_metric ascii_lower ascii_word embed_unit demo_qa q_reset [d_hit; d_noise]
    = Ok [d_hit] /\
  exists r2,
    filter_based_on_metric ascii_lower ascii_word embed_unit strict_qa q_reset [d_hit; d_noise]
      = Ok r2 /\ subseq r2 [d_hit].
Proof.
  assert (Hle : (threshold demo_qa <= threshold strict_qa)%R) by (simpl; lra).
  split; [exact Hle|]. split; [exact Examples.filter_demo|].
  exact (FilterFacts.filter_based_on_metric_monotone ascii_lower ascii_word embed_unit
           demo_qa strict_qa q_reset [d_hit; d_noise] [d_hit] Hle Examples.filter_demo).
Defined.

(** Witness of [InitFacts.init_without_corpus_raises]. *)
Lemma init_without_corpus_raises_witness :
  Forall (fun f => endswith (fst f) (py ".md") = false) [(py "notes.txt", py "hello")] /\
  exists docs, Reader.read_documents [(py "notes.txt", py "hello")] = Some docs /\
    init 5 0.5 None None docs = Err IndexError.
Proof.
  assert (Hf : Forall (fun f => endswith (fst f) (py ".md") = false)
                 [(py "notes.txt", py "hello")]) by (constructor; [reflexivity|constructor]).
  split; [exact Hf|].
  exact (InitFacts.init_without_corpus_raises 5 0.5 None _ Hf).
Defined.

(** Witness of [InitFacts.init_builds_then_reloads]. *)
Lemma init_builds_then_reloads_witness :
  [d_hit] <> [] /\
  exists s,
    init 5 0.5 None None [d_hit] = Ok s /\
    Retriever.retriever (QAService.retriever s) = Some {| view_store := [d_hit]; view_k := 5 |} /\
    disk (QAService.retriever s) = Some [d_hit] /\
    forall k' th' cache_disk' docs', exists s',
      init k' th' cache_disk' (disk (QAService.retriever s)) docs' = Ok s' /\
      Retriever.retriever (QAService.retriever s') = Some {| view_store := [d_hit]; view_k := k' |}.
Proof.
  assert (Hne : [d_hit] <> []) by discriminate.
  split; [exact Hne|].
  exact (InitFacts.init_builds_then_reloads 5 0.5 None [d_hit] Hne).
Defined.

(** Witness of [InitFacts.set_cache_writes_fresh]. *)
Lemma set_cache_writes_fresh_witness :
  exists s',
    QAService.set_cache fresh_qa [(py "q", py "a")] = Ok s' /\
    let docs := map (fun '(question, answer) =>
          {| page_content := question; doc_metadata := [(py "answer", VStr answer)] |})
          [(py "q", py "a")] in
    vectorstore (cache fresh_qa) = None /\ [(py "q", py "a")] <> [] /\
    vectorstore (cache s') = Some docs /\ disk (cache s') = Some docs /\
    Retriever.retriever (cache s') =
      Some {| view_store := docs; view_k := k_search (cache fresh_qa) |} /\
    QAService.retriever s' = QAService.retriever fresh_qa /\ threshold s' = threshold fresh_qa.
Proof.
  eexists. split; [reflexivity|].
  apply (InitFacts.set_cache_writes_fresh fresh_qa [(py "q", py "a")]). reflexivity.
Defined.

(** Witness of [InitFacts.set_cache_existing_store_raises]. *)
Lemma set_cache_existing_store_raises_witness :
  vectorstore (cache demo_qa) <> None /\ [(py "q", py "a")] <> [] /\
  QAService.set_cache demo_qa [(py "q", py "a")] = Err AttributeError.
Proof.
  assert (Hc : vectorstore (cache demo_qa) <> None) by discriminate.
  assert (Hne : [(py "q", py "a")] <> []) by discriminate.
  split; [exact Hc|]. split; [exact Hne|].
  exact (InitFacts.set_cache_existing_store_raises demo_qa _ Hc Hne).
Defined.

(** Witness of [InitFacts.set_cache_survives_restart]. *)
Lemma set_cache_survives_restart_witness :
  exists s',
    QAService.set_cache fresh_qa [(py "q", py "a")] = Ok s' /\
    exists vs, vectorstore (cache s') = Some vs /\
      forall s'', init 5 0.5 (disk (cache s')) (Some [d_hit]) [] = Ok s'' ->
        Retriever.retriever (cache s'') = Some {| view_store := vs; view_k := 5 |} /\
        forall data', data' <> [] -> QAService.set_cache s'' data' = Err AttributeError.
Proof.
  eexists. split; [reflexivity|].
  apply (InitFacts.set_cache_survives_restart fresh_qa [(py "q", py "a")]). reflexivity.
Defined.

Local Abbreviation ask := (Routes.ask ascii_lower ascii_word embed_unit first_k
                            (invoke_reply da) (stream_chunks [Some labelled_answer])
                            fmt_id fmt_id fmt_id).

(** Witness of [RouteFacts.ask_cache_hit]. *)
Lemma ask_cache_hit_witness :
  exists c1,
    get first_k (cache demo_qa) q_reset (Some 1%nat) = Ok ([d_hit], c1) /\ [d_hit] <> [] /\
    filter_based_on_metric ascii_lower ascii_word embed_unit demo_qa q_reset [d_hit]
      = Ok [d_hit] /\ [d_hit] <> [] /\
    ask demo_qa q_reset = (RList (answers [d_hit]), with_cache demo_qa c1).
Proof.
  eexists.
  assert (Hne : [d_hit] <> []) by discriminate.
  split; [reflexivity|]. split; [exact Hne|]. split; [exact filter_hit_only|].
  split; [exact Hne|].
  eapply RouteFacts.ask_cache_hit; [reflexivity|exact Hne|exact filter_hit_only|exact Hne].
Defined.

(** Witness of [RouteFacts.ask_falls_back]. *)
Lemma ask_falls_back_witness :
  exists c1 s2 tr,
    get first_k (cache empty_cache_qa) q_reset (Some 1%nat) = Ok ([], c1) /\
    get_llm_answer ascii_lower first_k (invoke_reply da) (stream_chunks [Some labelled_answer])
      fmt_id fmt_id fmt_id (with_cache empty_cache_qa c1) q_reset
      = Ok (stripped_answer, s2, tr) /\
    ask empty_cache_qa q_reset = (RStr stripped_answer, s2).
Proof.
  do 3 eexists. split; [reflexivity|]. split; [reflexivity|].
  eapply RouteFacts.ask_falls_back; [reflexivity|left; reflexivity|reflexivity].
Defined.

(** Witness of [RouteFacts.ask_sets_cache_k]. *)
Lemma ask_sets_cache_k_witness :
  Retriever.retriever (cache demo_qa) = Some {| view_store := [d_hit; d_noise]; view_k := 5 |} /\
  Retriever.retriever (cache (snd (ask demo_qa q_reset)))
    = Some {| view_store := [d_hit; d_noise]; view_k := 1 |}.
Proof.
  assert (Hv : Retriever.retriever (cache demo_qa)
               = Some {| view_store := [d_hit; d_noise]; view_k := 5 |}) by reflexivity.
  split; [exact Hv|].
  exact (RouteFacts.ask_sets_cache_k ascii_lower ascii_word embed_unit first_k
           (invoke_reply da) (stream_chunks [Some labelled_answer]) fmt_id fmt_id fmt_id
           demo_qa q_reset _ Hv).
Defined.

(** Witness of [RouteFacts.reachable_responses]. *)
Lemma reachable_responses_witness :
  exists s,
    init 5 0.5 None (Some [d_hit]) [] = Ok s /\
    Routes.reachable ascii_lower ascii_word embed_unit first_k
      (invoke_reply da) (stream_chunks [Some labelled_answer]) fmt_id fmt_id fmt_id s /\
    (exists answer s',
       Routes.ask_llm ascii_lower first_k (invoke_reply da) (stream_chunks [Some labelled_answer])
         fmt_id fmt_id fmt_id s q_reset = (RStr answer, s')) /\
    (fst (ask s q_reset) = RFalse \/ (exists answer, fst (ask s q_reset) = RStr answer) \/
     exists a l, fst (ask s q_reset) = RList (a :: l)).
Proof.
  eexists.
  assert (Hi : init 5 0.5 None (Some [d_hit]) [] =
               Ok {| threshold := 0.5; cache := new 5 None;
                     QAService.retriever := demo_adapter [d_hit] |}) by reflexivity.
  split; [exact Hi|].
  assert (Hr : Routes.reachable ascii_lower ascii_word embed_unit first_k
      (invoke_reply da) (stream_chunks [Some labelled_answer]) fmt_id fmt_id fmt_id
      {| threshold := 0.5; cache := new 5 None; QAService.retriever := demo_adapter [d_hit] |})
    by exact (reach_init _ _ _ _ _ _ _ _ _ 5 0.5 None (Some [d_hit]) [] _ Hi).
  split; [exact Hr|].
  exact (RouteFacts.reachable_responses ascii_lower ascii_word embed_unit first_k
           (invoke_reply da) (stream_chunks [Some labelled_answer]) fmt_id fmt_id fmt_id
           _ q_reset Hr).
Defined.

(** Witness of [RouteFacts.dummy_llm_answer]. *)
Lemma dummy_llm_answer_witness :
  (fun s : pystr => s) [0x434; 0x430]%N = [0x434; 0x430]%N /\
  get_llm_answer (fun s : pystr => s) first_k DummyLLM.invoke DummyLLM.stream
      fmt_id fmt_id fmt_id demo_qa q_reset =
    Ok (firstn 29 DummyLLM.content, demo_qa,
        [EInvoke (fmt_id q_reset);
         EStream [SystemMessage (fmt_id []); HumanMessage (fmt_id q_reset)]]).
Proof.
  assert (Hl : (fun s : pystr => s) [0x434; 0x430]%N = [0x434; 0x430]%N) by reflexivity.
  split; [exact Hl|].
  exact (RouteFacts.dummy_llm_answer (fun s : pystr => s) first_k fmt_id fmt_id fmt_id
           demo_qa q_reset Hl).
Defined.

(** Witness of [RouteFacts.set_cache_route_closed]: after a first
    [/set-cache] on a fresh service, a question, another [/set-cache] and
    a call to [/ask-llm]. *)
Lemma set_cache_route_closed_witness :
  let dq := {| page_content := py "q"; doc_metadata := [(py "answer", VStr (py "a"))] |} in
  let s1 := snd (Routes.set_cache fresh_qa [(py "q", py "a")]) in
  let reqs := [AskReq q_reset; SetCacheReq [(q_reset, py "b")]; AskLLMReq q_reset] in
  vectorstore (cache s1) = Some [dq] /\
  Forall2 (fun req r => forall data, req = SetCacheReq data -> r = RFalse)
    reqs (fst (Routes.serve ascii_lower ascii_word embed_unit first_k
                 (invoke_reply da) (stream_chunks [Some labelled_answer])
                 fmt_id fmt_id fmt_id s1 reqs)) /\
  vectorstore (cache (snd (Routes.serve ascii_lower ascii_word embed_unit first_k
                             (invoke_reply da) (stream_chunks [Some labelled_answer])
                             fmt_id fmt_id fmt_id s1 reqs))) = Some [dq].
Proof.
  intros dq s1 reqs.
  assert (Hc : vectorstore (cache s1) = Some [dq]) by reflexivity.
  split; [exact Hc|].
  exact (RouteFacts.set_cache_route_closed ascii_lower ascii_word embed_unit first_k
           (invoke_reply da) (stream_chunks [Some labelled_answer]) fmt_id fmt_id fmt_id
           s1 [dq] reqs Hc).
Defined.

End ExtraExamples.
